(** * MT5 adapter for BrokerOps

    A shallow embedding of [adapters/mt5/adapter.py]: the script reads deal
    records from a MetaTrader 5 terminal (or a mock record when the vendor
    package is missing) and posts one economic event per deal to the
    BrokerOps economics API.

    Python values are modelled by an inductive type of scalars, dicts read
    with [.get] by finite maps with string keys, floats by IEEE 754
    specification floats, and the effects of the script (calls of
    [requests.post], lines written by [print], raised exceptions) by a state
    and error monad over an explicit world. *)

From Stdlib Require Import ZArith String List Lia.
From Stdlib Require Import Floats.SpecFloat.
From stdpp Require Import gmap strings pretty.

Local Open Scope Z_scope.

(** ** Python values *)

(** The scalar values a deal dictionary or a JSON payload carries.  A Python
    [float] is a binary64 number: zeros and infinities of either sign, NaN,
    and finite numbers [(-1)^s * m * 2^e]. *)
Inductive value : Type :=
| VNone
| VBool (b : bool)
| VInt (z : Z)
| VFloat (f : spec_float)
| VStr (s : string).

(** Exceptions, all of them subclasses of Python's [Exception]. *)
Inductive exn : Type :=
| TypeError
| ReadTimeout
| ConnectionError
| RequestException (msg : string).

(** The outcome of evaluating an expression that may raise. *)
Inductive res (A : Type) : Type :=
| Ok (a : A)
| Raise (e : exn).
Arguments Ok {A} a.
Arguments Raise {A} e.

(** [bool(v)]: the truth value Python gives a scalar. *)
Definition truthy (v : value) : bool :=
  match v with
  | VNone => false
  | VBool b => b
  | VInt z => negb (z =? 0)
  | VFloat (S754_zero _) => false
  | VFloat _ => true
  | VStr s => negb (String.eqb s "")
  end.

(** [a or b]. *)
Definition py_or (a b : value) : value := if truthy a then a else b.

(** [abs(v)]: defined on numbers (a bool is an int), a [TypeError] on
    anything else. *)
Definition py_abs (v : value) : res value :=
  match v with
  | VBool b => Ok (VInt (Z.b2z b))
  | VInt z => Ok (VInt (Z.abs z))
  | VFloat f => Ok (VFloat (SFabs f))
  | VNone | VStr _ => Raise TypeError
  end.

(** [v >= 0]: a comparison with NaN is false, a comparison of [None] or of a
    string with an int raises [TypeError]. *)
Definition py_ge_zero (v : value) : res bool :=
  match v with
  | VBool b => Ok (0 <=? Z.b2z b)
  | VInt z => Ok (0 <=? z)
  | VFloat f =>
      Ok match SFcompare f (S754_zero false) with
         | Some Gt | Some Eq => true
         | _ => false
         end
  | VNone | VStr _ => Raise TypeError
  end.

(** [d.get(key, dflt)] on a dict with string keys. *)
Definition get (d : gmap string value) (key : string) (dflt : value) : value :=
  default dflt (d !! key).

(** ** The world outside the script *)

(** A [datetime], identified with its POSIX timestamp. *)
Record datetime : Type := { timestamp : spec_float }.

(** The JSON body posted to the economics API. *)
Record Payload : Type := {
  traceId : value;
  type : value;
  grossRevenue : value;
  fees : value;
  costs : value;
  currency : value;
  source : value
}.

(** One call [requests.post(url, json=..., timeout=...)]. *)
Record Request : Type := {
  url : string;
  json : Payload;
  timeout : Z
}.

(** The part of a [requests.Response] the script reads. *)
Record Response : Type := {
  status_code : Z;
  text : string
}.

(** [resp.ok] of the requests library: false exactly for a client or server
    error status, 400 to 599. *)
Definition ok (resp : Response) : bool :=
  negb ((400 <=? status_code resp) && (status_code resp <? 600)).

(** What a call of [requests.post] comes back with. *)
Inductive http_outcome : Type :=
| Responded (resp : Response)
| Failed (e : exn).

(** The MetaTrader5 package, when it could be imported.  [history_deals_get]
    yields [None] on failure; a deal tuple is identified with the dict its
    [_asdict()] gives. *)
Record MT5 : Type := {
  history_deals_get : datetime -> datetime -> option (list (gmap string value));
  last_error : Z * string
}.

(** The environment of a run: the vendor package ([None] when the import
    failed, that is [MT5_AVAILABLE = False]), the clock, the runtime's
    rendering of a float by [str], and the remote endpoint, whose answer may
    depend on the calls it has received so far. *)
Record Env : Type := {
  mt5 : option MT5;
  now : datetime;
  float_repr : spec_float -> string;
  server : list Request -> Request -> http_outcome
}.

Definition MT5_AVAILABLE (E : Env) : bool :=
  match mt5 E with Some _ => true | None => false end.

(** The lines the script prints, kept with the values they are formatted
    from. *)
Inductive Line : Type :=
| Line_syncing (since : datetime)
| Line_found (n : nat)
| Line_deal (ticket symbol profit : value)
| Line_posted (trace_id : value)
| Line_failed (status : Z) (body : string)
| Line_error (e : exn)
| Line_get_deals_failed (err : Z * string).

(** The observable state: every call of [requests.post] made so far and
    every line printed so far, oldest first. *)
Record World : Type := {
  post_calls : list Request;
  stdout : list Line
}.

Definition empty_world : World := {| post_calls := []; stdout := [] |}.

(** ** The effect monad *)

Definition M (A : Type) : Type := World -> res A * World.

Definition ret {A : Type} (a : A) : M A := fun w => (Ok a, w).

Definition bind {A B : Type} (m : M A) (k : A -> M B) : M B :=
  fun w =>
    match m w with
    | (Ok a, w') => k a w'
    | (Raise e, w') => (Raise e, w')
    end.

Definition lift {A : Type} (r : res A) : M A := fun w => (r, w).

(** [try: body except Exception as e: handler e]. *)
Definition try_except {A : Type} (body : M A) (handler : exn -> M A) : M A :=
  fun w =>
    match body w with
    | (Ok a, w') => (Ok a, w')
    | (Raise e, w') => handler e w'
    end.

Definition print (l : Line) : M unit :=
  fun w => (Ok tt, {| post_calls := post_calls w; stdout := stdout w ++ [l] |}).

Declare Scope py_scope.
Delimit Scope py_scope with py.
Notation "'let*' x ':=' m 'in' k" := (bind m (fun x => k))
  (at level 10, x name, m at level 200, k at level 200, only parsing) : py_scope.
Local Open Scope py_scope.

(** [for x in xs: body x]; an exception leaves the loop. *)
Fixpoint for_each {A : Type} (xs : list A) (body : A -> M unit) : M unit :=
  match xs with
  | [] => ret tt
  | x :: xs' => let* _ := body x in for_each xs' body
  end.

(** [requests.post]: the call is recorded, and the endpoint decides between
    a response and an exception. *)
Definition requests_post (E : Env) (req : Request) : M Response :=
  fun w =>
    let w' := {| post_calls := post_calls w ++ [req]; stdout := stdout w |} in
    match server E (post_calls w) req with
    | Responded resp => (Ok resp, w')
    | Failed e => (Raise e, w')
    end.

(** ** The script *)

Definition BROKEROPS_BASE_URL : string := "http://localhost".
Definition ECONOMICS_URL : string := BROKEROPS_BASE_URL +:+ ":7005".
Definition WEBHOOKS_URL : string := BROKEROPS_BASE_URL +:+ ":7006".

(** [str(v)], as an f-string renders a value. *)
Definition py_str (E : Env) (v : value) : string :=
  match v with
  | VNone => "None"
  | VBool true => "True"
  | VBool false => "False"
  | VInt z => pretty z
  | VFloat f => float_repr E f
  | VStr s => s
  end.

(** The floats of the mock record. *)
Definition f_0_1 : spec_float := S754_finite false 7205759403792794 (-56).
Definition f_1_0850 : spec_float := S754_finite false 4886405595696988 (-52).
Definition f_12_50 : spec_float := S754_finite false 7036874417766400 (-49).
Definition f_neg_0_50 : spec_float := S754_finite true 4503599627370496 (-53).
Definition f_neg_0_10 : spec_float := S754_finite true 7205759403792794 (-56).

(** The record [get_recent_deals] returns in mock mode. *)
Definition mock_deal (E : Env) : gmap string value :=
  <["ticket" := VInt 12345678]>
  (<["symbol" := VStr "EURUSD"]>
  (<["type" := VInt 0]>
  (<["volume" := VFloat f_0_1]>
  (<["price" := VFloat f_1_0850]>
  (<["profit" := VFloat f_12_50]>
  (<["commission" := VFloat f_neg_0_50]>
  (<["swap" := VFloat f_neg_0_10]>
  (<["time" := VFloat (timestamp (now E))]>
  (<["comment" := VStr "demo-order-001"]> ∅))))))))).

Definition get_recent_deals (E : Env) (since : datetime)
  : M (list (gmap string value)) :=
  match mt5 E with
  | None => ret [mock_deal E]
  | Some m =>
      match history_deals_get m since (now E) with
      | None => let* _ := print (Line_get_deals_failed (last_error m)) in ret []
      | Some deals => ret deals
      end
  end.

(** The dict literal at the head of [post_economic_event]. *)
Definition build_payload (trace_id event_type : value)
    (data : gmap string value) : res Payload :=
  match py_abs (get data "commission" (VInt 0)) with
  | Raise e => Raise e
  | Ok fees_v =>
      match py_abs (get data "swap" (VInt 0)) with
      | Raise e => Raise e
      | Ok costs_v =>
          Ok {| traceId := trace_id;
                type := event_type;
                grossRevenue := get data "profit" (VInt 0);
                fees := fees_v;
                costs := costs_v;
                currency := VStr "USD";
                source := VStr "mt5" |}
      end
  end.

(** The call [post_economic_event] makes with a payload. *)
Definition economics_request (payload : Payload) : Request :=
  {| url := ECONOMICS_URL +:+ "/economics/event";
     json := payload;
     timeout := 5 |}.

Definition post_economic_event (E : Env) (trace_id event_type : value)
    (data : gmap string value) : M bool :=
  let* payload := lift (build_payload trace_id event_type data) in
  try_except
    (let* resp := requests_post E (economics_request payload) in
     if ok resp
     then let* _ := print (Line_posted trace_id) in ret true
     else let* _ := print (Line_failed (status_code resp) (text resp)) in
          ret false)
    (fun e => let* _ := print (Line_error e) in ret false).

(** The trace id [sync_deals] derives from a deal. *)
Definition trace_id_of (E : Env) (deal : gmap string value) : value :=
  let ticket := get deal "ticket" (VStr "unknown") in
  py_or (get deal "comment" VNone) (VStr ("mt5-" +:+ py_str E ticket)).

(** The event type [sync_deals] derives from a deal. *)
Definition event_type_of (deal : gmap string value) : res value :=
  let profit := get deal "profit" (VInt 0) in
  match py_ge_zero profit with
  | Raise e => Raise e
  | Ok c => Ok (if c then VStr "TRADE_EXECUTED" else VStr "TRADE_EXECUTED")
  end.

(** The body of the loop of [sync_deals]. *)
Definition sync_deal (E : Env) (deal : gmap string value) : M unit :=
  let ticket := get deal "ticket" (VStr "unknown") in
  let symbol := get deal "symbol" (VStr "") in
  let profit := get deal "profit" (VInt 0) in
  let trace_id := trace_id_of E deal in
  let* event_type := lift (event_type_of deal) in
  let* _ := print (Line_deal ticket symbol profit) in
  let* _ := post_economic_event E trace_id event_type deal in
  ret tt.

Definition sync_deals (E : Env) (since : datetime) : M unit :=
  let* _ := print (Line_syncing since) in
  let* deals := get_recent_deals E since in
  let* _ := print (Line_found (length deals)) in
  for_each deals (sync_deal E).

(** ** Notions the properties are stated with *)

(** The event [sync_deals] posts for a deal: the trace id and event type of
    the loop body, handed to the payload of [post_economic_event]. *)
Definition mapped_event (E : Env) (deal : gmap string value) : res Payload :=
  match event_type_of deal with
  | Raise e => Raise e
  | Ok event_type => build_payload (trace_id_of E deal) event_type deal
  end.

(** The deals a run works on. *)
Definition fetched (E : Env) (since : datetime) : list (gmap string value) :=
  match mt5 E with
  | None => [mock_deal E]
  | Some m => default [] (history_deals_get m since (now E))
  end.

(** A Python number: a bool, an int or a float, NaN included. *)
Definition numeric (v : value) : bool :=
  match v with
  | VBool _ | VInt _ | VFloat _ => true
  | VNone | VStr _ => false
  end.

(** A number that is a quantity: NaN, which is not a number, is left out. *)
Definition number (v : value) : bool :=
  match v with
  | VFloat S754_nan => false
  | _ => numeric v
  end.

(** Free text, or nothing. *)
Definition text_or_none (v : value) : bool :=
  match v with
  | VNone | VStr _ => true
  | _ => false
  end.

(** The field [key] is missing, or holds a value that satisfies [P]. *)
Definition field_is (P : value -> bool) (d : gmap string value)
    (key : string) : bool :=
  match d !! key with
  | None => true
  | Some v => P v
  end.

(** A well-formed deal record: the numeric fields the adapter reads are
    numbers where present, and the comment is text where present. *)
Definition well_formed_deal (d : gmap string value) : bool :=
  field_is numeric d "profit" && field_is numeric d "commission"
  && field_is numeric d "swap" && field_is text_or_none d "comment".

(** The comment is present and not empty. *)
Definition has_comment (d : gmap string value) : bool :=
  match d !! "comment" with
  | Some (VStr s) => negb (String.eqb s "")
  | _ => false
  end.

(** What one call of [post_economic_event] does once its payload is built:
    one call of [requests.post], one printed line, a boolean. *)
Definition delivery (E : Env) (trace_id : value) (p : Payload) (w : World)
  : res bool * World :=
  let sent := post_calls w ++ [economics_request p] in
  match server E (post_calls w) (economics_request p) with
  | Responded resp =>
      if ok resp
      then (Ok true,
            {| post_calls := sent;
               stdout := stdout w ++ [Line_posted trace_id] |})
      else (Ok false,
            {| post_calls := sent;
               stdout := stdout w
                         ++ [Line_failed (status_code resp) (text resp)] |})
  | Failed e =>
      (Ok false,
       {| post_calls := sent; stdout := stdout w ++ [Line_error e] |})
  end.

(** ** Scenarios *)

(** A rendering of floats for the scenarios: right on zeros, infinities and
    NaN; no scenario has a finite float where a string is built. *)
Definition sample_float_repr (f : spec_float) : string :=
  match f with
  | S754_zero false => "0.0"
  | S754_zero true => "-0.0"
  | S754_infinity false => "inf"
  | S754_infinity true => "-inf"
  | S754_nan => "nan"
  | S754_finite _ _ _ => "<finite>"
  end.

Definition epoch : datetime := {| timestamp := S754_zero false |}.

Definition ok_server (_ : list Request) (_ : Request) : http_outcome :=
  Responded {| status_code := 200; text := "" |}.

Definition rejecting_server (_ : list Request) (_ : Request) : http_outcome :=
  Responded {| status_code := 400; text := "bad request" |}.

Definition timeout_server (_ : list Request) (_ : Request) : http_outcome :=
  Failed ReadTimeout.

(** Mock mode (the vendor package is not installed). *)
Definition mock_env (srv : list Request -> Request -> http_outcome) : Env :=
  {| mt5 := None;
     now := epoch;
     float_repr := sample_float_repr;
     server := srv |}.

(** A terminal that answers every history request with [deals]. *)
Definition live_env (deals : option (list (gmap string value)))
    (srv : list Request -> Request -> http_outcome) : Env :=
  {| mt5 := Some {| history_deals_get := fun _ _ => deals;
                    last_error := (-1, "Terminal: Call failed") |};
     now := epoch;
     float_repr := sample_float_repr;
     server := srv |}.

(** The two deals of the scenario of the specification. *)
Definition f_10 : spec_float := S754_finite false 5629499534213120 (-49).
Definition f_neg_3 : spec_float := S754_finite true 6755399441055744 (-51).
Definition f_neg_0_2 : spec_float := S754_finite true 7205759403792794 (-55).

Definition deal_1 : gmap string value :=
  <["ticket" := VInt 1]>
  (<["profit" := VFloat f_10]>
  (<["commission" := VFloat f_neg_0_50]>
  (<["swap" := VFloat f_neg_0_10]>
  (<["comment" := VStr ""]> ∅)))).

Definition deal_2 : gmap string value :=
  <["ticket" := VInt 2]>
  (<["profit" := VFloat f_neg_3]>
  (<["commission" := VFloat f_neg_0_2]>
  (<["swap" := VInt 0]>
  (<["comment" := VStr "c2"]> ∅)))).

(** The events the specification expects for the two deals. *)
Definition f_0_50 : spec_float := S754_finite false 4503599627370496 (-53).
Definition f_0_2 : spec_float := S754_finite false 7205759403792794 (-55).

Definition payload_1 : Payload :=
  {| traceId := VStr "mt5-1"; type := VStr "TRADE_EXECUTED";
     grossRevenue := VFloat f_10;
     fees := VFloat f_0_50; costs := VFloat f_0_1;
     currency := VStr "USD"; source := VStr "mt5" |}.

Definition payload_2 : Payload :=
  {| traceId := VStr "c2"; type := VStr "TRADE_EXECUTED";
     grossRevenue := VFloat f_neg_3;
     fees := VFloat f_0_2; costs := VInt 0;
     currency := VStr "USD"; source := VStr "mt5" |}.

(** The event posted for the mock record. *)
Definition mock_payload : Payload :=
  {| traceId := VStr "demo-order-001"; type := VStr "TRADE_EXECUTED";
     grossRevenue := VFloat f_12_50;
     fees := VFloat f_0_50; costs := VFloat f_0_1;
     currency := VStr "USD"; source := VStr "mt5" |}.

(** A dict whose commission is [None]. *)
Definition null_commission : gmap string value :=
  <["ticket" := VInt 9]> (<["commission" := VNone]> ∅).

(** A deal with nothing but a ticket. *)
Definition bare_deal : gmap string value := <["ticket" := VInt 7]> ∅.

(** ** The rest of the script: terminal session, health check, webhooks and
    the command line *)

#[local] Set Warnings "-register-all".

(** A decoded JSON body. *)
Inductive Json : Type :=
| JScalar (v : value)
| JList (l : list Json)
| JDict (d : gmap string Json).

(** What the rest of the script can raise: an exception of the sync code or
    of the requests library, the [ValueError] of [datetime.fromisoformat],
    the [AttributeError] of [.get] on a body that is not a dict. *)
Inductive exception : Type :=
| Raised (e : exn)
| ValueError
| AttributeError.

Inductive outcome (A : Type) : Type :=
| Done (a : A)
| Thrown (e : exception).
Arguments Done {A} a.
Arguments Thrown {A} e.

(** The fields read from [mt5.terminal_info()] and [mt5.account_info()]. *)
Record TerminalInfo : Type := { name : string; build : Z; company : string }.
Record AccountInfo : Type := { login : Z; balance : spec_float }.

(** One call [requests.get(url, timeout=...)]. *)
Record GetRequest : Type := { get_url : string; get_timeout : Z }.

Module Webhook.

(** The JSON body of a registration. *)
Record Payload : Type := { url : string; events : list string }.

(** One call [requests.post(url, json=..., timeout=...)] to the webhooks
    API. *)
Record Request : Type := { endpoint : string; json : Payload; timeout : Z }.

(** The response: status and text, and what [resp.json()] gives. *)
Record Reply : Type := { response : Response; body : res Json }.

Inductive outcome : Type :=
| Responded (r : Reply)
| Failed (e : exn).

End Webhook.

(** The machine the script runs on: the environment of the sync code, the
    rest of the MetaTrader5 package (read only when the package was
    imported), the answers to health requests and to webhook registrations,
    and the two operations on dates the command line needs:
    [datetime.fromisoformat] ([None] for a [ValueError]) and
    [dt - timedelta(days=1)]. *)
Record Host : Type := {
  env : Env;
  initialize : bool;
  terminal_info : option TerminalInfo;
  account_info : option AccountInfo;
  health : GetRequest -> http_outcome;
  webhooks : Webhook.Request -> Webhook.outcome;
  fromisoformat : string -> option datetime;
  day_before : datetime -> datetime
}.

(** Calls that open and close the connection to the terminal. *)
Inductive terminal_call : Type :=
| Call_initialize
| Call_shutdown.

(** Every line the script can print: the lines of the sync code, and one
    constructor for each other [print]. *)
Inductive Out : Type :=
| Out_script (l : Line)
| Out_mock_initialize
| Out_initialize_failed (err : Z * string)
| Out_connected_to (terminal : string)
| Out_build (b : Z)
| Out_company (c : string)
| Out_closed
| Out_health_check
| Out_mt5_terminal
| Out_connected
| Out_account (login : Z)
| Out_balance (balance : spec_float)
| Out_not_connected
| Out_economics_api
| Out_webhooks_api
| Out_service_connected (base_url : string)
| Out_service_error (status : Z)
| Out_not_reachable (e : exception)
| Out_webhook_registered (id : Json)
| Out_webhook_failed (status : Z)
| Out_webhook_error (e : exception)
| Out_text (s : string).

(** The observable state of a whole invocation: the calls sent to the
    economics API, to the webhooks API and to the health endpoints, the
    calls that open and close the terminal, and the printed lines, each
    oldest first. *)
Record Session : Type := {
  posts : list Request;
  hook_posts : list Webhook.Request;
  gets : list GetRequest;
  terminal_calls : list terminal_call;
  out : list Out
}.

Definition empty_session : Session :=
  {| posts := []; hook_posts := []; gets := []; terminal_calls := [];
     out := [] |}.

Definition Run (A : Type) : Type := Session -> outcome A * Session.

Definition pure {A : Type} (a : A) : Run A := fun s => (Done a, s).

Definition throw {A : Type} (e : exception) : Run A := fun s => (Thrown e, s).

Definition and_then {A B : Type} (m : Run A) (k : A -> Run B) : Run B :=
  fun s =>
    match m s with
    | (Done a, s') => k a s'
    | (Thrown e, s') => (Thrown e, s')
    end.

(** [try: body except Exception as e: handler e]. *)
Definition attempt {A : Type} (body : Run A) (handler : exception -> Run A)
  : Run A :=
  fun s =>
    match body s with
    | (Done a, s') => (Done a, s')
    | (Thrown e, s') => handler e s'
    end.

Definition say (o : Out) : Run unit :=
  fun s =>
    (Done tt,
     {| posts := posts s; hook_posts := hook_posts s; gets := gets s;
        terminal_calls := terminal_calls s; out := out s ++ [o] |}).

Definition terminal (c : terminal_call) : Run unit :=
  fun s =>
    (Done tt,
     {| posts := posts s; hook_posts := hook_posts s; gets := gets s;
        terminal_calls := terminal_calls s ++ [c]; out := out s |}).

Notation "'let+' x ':=' m 'in' k" := (and_then m (fun x => k))
  (at level 10, x name, m at level 200, k at level 200, only parsing) : py_scope.

(** The sync code run inside an invocation: its calls continue the calls to
    the economics API, its lines continue the output, its exception, if any,
    goes on. *)
Definition run_script {A : Type} (m : M A) : Run A :=
  fun s =>
    match m {| post_calls := posts s; stdout := [] |} with
    | (r, w) =>
        (match r with Ok a => Done a | Raise e => Thrown (Raised e) end,
         {| posts := post_calls w; hook_posts := hook_posts s; gets := gets s;
            terminal_calls := terminal_calls s;
            out := out s ++ map Out_script (stdout w) |})
    end.

(** [requests.get]. *)
Definition requests_get (H : Host) (req : GetRequest) : Run Response :=
  fun s =>
    let s' := {| posts := posts s; hook_posts := hook_posts s;
                 gets := gets s ++ [req];
                 terminal_calls := terminal_calls s; out := out s |} in
    match health H req with
    | Responded resp => (Done resp, s')
    | Failed e => (Thrown (Raised e), s')
    end.

(** [requests.post] to the webhooks API. *)
Definition requests_post_webhook (H : Host) (req : Webhook.Request)
  : Run Webhook.Reply :=
  fun s =>
    let s' := {| posts := posts s; hook_posts := hook_posts s ++ [req];
                 gets := gets s;
                 terminal_calls := terminal_calls s; out := out s |} in
    match webhooks H req with
    | Webhook.Responded r => (Done r, s')
    | Webhook.Failed e => (Thrown (Raised e), s')
    end.

Definition mt5_initialize (H : Host) : Run bool :=
  match mt5 (env H) with
  | None => let+ _ := say Out_mock_initialize in pure true
  | Some m =>
      let+ _ := terminal Call_initialize in
      if negb (initialize H)
      then let+ _ := say (Out_initialize_failed (last_error m)) in pure false
      else
        let+ _ :=
          match terminal_info H with
          | Some info =>
              let+ _ := say (Out_connected_to (name info)) in
              let+ _ := say (Out_build (build info)) in
              say (Out_company (company info))
          | None => pure tt
          end in
        pure true
  end.

Definition mt5_shutdown (H : Host) : Run unit :=
  let+ _ := if MT5_AVAILABLE (env H) then terminal Call_shutdown else pure tt in
  say Out_closed.

(** One of the two service checks of [check_health]. *)
Definition check_service (H : Host) (base_url : string) : Run unit :=
  attempt
    (let+ resp := requests_get H {| get_url := base_url +:+ "/health";
                                    get_timeout := 2 |} in
     if ok resp
     then say (Out_service_connected base_url)
     else say (Out_service_error (status_code resp)))
    (fun e => say (Out_not_reachable e)).

Definition check_health (H : Host) : Run unit :=
  let+ _ := say Out_health_check in
  let+ _ := say Out_mt5_terminal in
  let+ up := mt5_initialize H in
  let+ _ :=
    if up
    then
      let+ _ := say Out_connected in
      let+ _ :=
        if MT5_AVAILABLE (env H)
        then match account_info H with
             | Some account =>
                 let+ _ := say (Out_account (login account)) in
                 say (Out_balance (balance account))
             | None => pure tt
             end
        else pure tt in
      mt5_shutdown H
    else say Out_not_connected in
  let+ _ := say Out_economics_api in
  let+ _ := check_service H ECONOMICS_URL in
  let+ _ := say Out_webhooks_api in
  check_service H WEBHOOKS_URL.

(** [data.get('id')] on a decoded body. *)
Definition json_get (data : Json) (key : string) : outcome Json :=
  match data with
  | JDict d => Done (default (JScalar VNone) (d !! key))
  | _ => Thrown AttributeError
  end.

Definition register_webhook (H : Host) (url : string) (events : list string)
  : Run (option Json) :=
  let payload := {| Webhook.url := url; Webhook.events := events |} in
  attempt
    (let+ resp := requests_post_webhook H
                    {| Webhook.endpoint := WEBHOOKS_URL +:+ "/webhooks";
                       Webhook.json := payload;
                       Webhook.timeout := 5 |} in
     if ok (Webhook.response resp)
     then
       let+ data := (fun s => (match Webhook.body resp with
                               | Ok j => Done j
                               | Raise e => Thrown (Raised e)
                               end, s)) in
       let+ id := (fun s => (json_get data "id", s)) in
       let+ _ := say (Out_webhook_registered id) in
       pure (Some data)
     else
       let+ _ := say (Out_webhook_failed
                        (status_code (Webhook.response resp))) in
       pure None)
    (fun e => let+ _ := say (Out_webhook_error e) in pure None).

(** The parsed command line. *)
Record Args : Type := {
  arg_health : bool;
  arg_sync_deals : bool;
  arg_since : option string;
  arg_register_webhook : option string
}.

(** The truth value of an optional string argument. *)
Definition given (o : option string) : bool :=
  match o with
  | Some s => negb (String.eqb s "")
  | None => false
  end.

Definition nl : string := String (Ascii.ascii_of_nat 10) "".

(** The lines of the interactive mode. *)
Definition usage : list Out :=
  [Out_text "MT5 Adapter for BrokerOps";
   Out_text "========================================";
   Out_text (nl +:+ "Commands:");
   Out_text "  --health         Check connections";
   Out_text "  --sync-deals     Sync recent deals to economics";
   Out_text "  --register-webhook <url>  Register webhook";
   Out_text (nl +:+ "Run with --help for more options")].

Fixpoint say_all (os : list Out) : Run unit :=
  match os with
  | [] => pure tt
  | o :: os' => let+ _ := say o in say_all os'
  end.

Definition main (H : Host) (args : Args) : Run unit :=
  if arg_health args then check_health H
  else if arg_sync_deals args then
    let since := day_before H (now (env H)) in
    let+ since :=
      if given (arg_since args)
      then match fromisoformat H (default "" (arg_since args)) with
           | Some d => pure d
           | None => throw ValueError
           end
      else pure since in
    let+ up := mt5_initialize H in
    if up
    then let+ _ := run_script (sync_deals (env H) since) in mt5_shutdown H
    else pure tt
  else if given (arg_register_webhook args) then
    let+ _ := register_webhook H (default "" (arg_register_webhook args))
                ["trace.completed"; "override.approved"; "economics.recorded"] in
    pure tt
  else say_all usage.

(** ** Further notions *)

(** Not below zero, said without the comparison of the script: an integer
    from 0 on, or a float that is a zero, an infinity or a finite number with
    the sign bit clear.  NaN is not among them. *)
Inductive nonnegative : value -> Prop :=
| nonnegative_int (z : Z) : 0 <= z -> nonnegative (VInt z)
| nonnegative_zero : nonnegative (VFloat (S754_zero false))
| nonnegative_infinity : nonnegative (VFloat (S754_infinity false))
| nonnegative_finite (m : positive) (e : Z) :
    nonnegative (VFloat (S754_finite false m e)).

(** A deal whose commission is NaN. *)
Definition nan_deal : gmap string value :=
  <["ticket" := VInt 4]> (<["commission" := VFloat S754_nan]> ∅).


(** The three fields the mapper computes with all hold numbers, where they
    are present. *)
Definition numeric_fields (d : gmap string value) : bool :=
  field_is numeric d "profit" && field_is numeric d "commission"
  && field_is numeric d "swap".

(** The keys of a deal that take part in its event. *)
Definition mapped_keys : list string :=
  ["ticket"; "comment"; "profit"; "commission"; "swap"].

(** The shape every call to the economics API has. *)
Definition economics_call (r : Request) : Prop :=
  url r = "http://localhost:7005/economics/event" /\
  timeout r = 5 /\
  type (json r) = VStr "TRADE_EXECUTED" /\
  currency (json r) = VStr "USD" /\
  source (json r) = VStr "mt5".

(** The lower bound [main] syncs from: the date given with [--since], or the
    day before now; [None] when the date does not parse. *)
Definition since_of (H : Host) (args : Args) : option datetime :=
  if given (arg_since args)
  then fromisoformat H (default "" (arg_since args))
  else Some (day_before H (now (env H))).

(** [mt5_initialize] will report success: mock mode, or a terminal that
    opens. *)
Definition opens (H : Host) : bool :=
  negb (MT5_AVAILABLE (env H)) || initialize H.

(** The calls [mt5_initialize] and [mt5_shutdown] make to the terminal. *)
Definition opening_calls (H : Host) : list terminal_call :=
  if MT5_AVAILABLE (env H) then [Call_initialize] else [].

Definition closing_calls (H : Host) : list terminal_call :=
  if MT5_AVAILABLE (env H) then [Call_shutdown] else [].

(** The registration [register_webhook] sends. *)
Definition webhook_request (url : string) (events : list string)
  : Webhook.Request :=
  {| Webhook.endpoint := "http://localhost:7006/webhooks";
     Webhook.json := {| Webhook.url := url; Webhook.events := events |};
     Webhook.timeout := 5 |}.

(** The two health requests of [check_health]. *)
Definition health_requests : list GetRequest :=
  [{| get_url := "http://localhost:7005/health"; get_timeout := 2 |};
   {| get_url := "http://localhost:7006/health"; get_timeout := 2 |}].

(** An optional string argument with the empty string taken for absent. *)
Definition drop_empty (o : option string) : option string :=
  match o with
  | Some s => if String.eqb s "" then None else Some s
  | None => None
  end.

(** The events [main] registers a webhook for. *)
Definition registered_events : list string :=
  ["trace.completed"; "override.approved"; "economics.recorded"].

(** A host for the scenarios: a terminal that opens, services that answer
    200, a webhooks API that assigns the id [wh-1]. *)
Definition sample_host (E : Env) (opens : bool) : Host :=
  {| env := E;
     initialize := opens;
     terminal_info := Some {| name := "MetaTrader 5"; build := 4000;
                              company := "Broker" |};
     account_info := Some {| login := 1001; balance := f_10 |};
     health := fun _ => Responded {| status_code := 200; text := "ok" |};
     webhooks := fun _ =>
       Webhook.Responded
         {| Webhook.response := {| status_code := 201; text := "" |};
            Webhook.body := Ok (JDict (<["id" := JScalar (VStr "wh-1")]> ∅)) |};
     fromisoformat := fun s =>
       if String.eqb s "1970-01-01" then Some epoch else None;
     day_before := fun d => d |}.

Definition two_deal_host (opens : bool) : Host :=
  sample_host (live_env (Some [deal_1; deal_2]) ok_server) opens.

Definition sync_args (since : option string) : Args :=
  {| arg_health := false; arg_sync_deals := true; arg_since := since;
     arg_register_webhook := None |}.

(** A deal whose profit is text. *)
Definition text_profit : gmap string value :=
  <["ticket" := VInt 3]> (<["profit" := VStr "12.5"]> ∅).

Definition malformed_deal_host : Host :=
  sample_host (live_env (Some [deal_1; text_profit; deal_2]) ok_server) true.

Definition mock_host : Host := sample_host (mock_env ok_server) true.

(** Every flag at once. *)
Definition all_args : Args :=
  {| arg_health := true; arg_sync_deals := true;
     arg_since := Some "1970-01-01";
     arg_register_webhook := Some "http://example.org/hook" |}.

Definition sync_and_register_args : Args :=
  {| arg_health := false; arg_sync_deals := true; arg_since := None;
     arg_register_webhook := Some "http://example.org/hook" |}.

Definition register_args : Args :=
  {| arg_health := false; arg_sync_deals := false; arg_since := None;
     arg_register_webhook := Some "http://example.org/hook" |}.

(** ** Running the script: equations *)

Lemma py_abs_numeric (d : gmap string value) (key : string) :
  field_is numeric d key = true ->
  exists a, py_abs (get d key (VInt 0)) = Ok a.
Proof.
  unfold field_is, get.
  destruct (d !! key) as [v|]; simpl.
  - destruct v; simpl; intros H; try discriminate H; eauto.
  - eauto.
Qed.

Lemma build_payload_numeric (trace_id event_type : value)
    (data : gmap string value) :
  field_is numeric data "commission" = true ->
  field_is numeric data "swap" = true ->
  exists fees_v costs_v,
    py_abs (get data "commission" (VInt 0)) = Ok fees_v /\
    py_abs (get data "swap" (VInt 0)) = Ok costs_v /\
    build_payload trace_id event_type data =
      Ok {| traceId := trace_id;
            type := event_type;
            grossRevenue := get data "profit" (VInt 0);
            fees := fees_v;
            costs := costs_v;
            currency := VStr "USD";
            source := VStr "mt5" |}.
Proof.
  intros Hc Hs.
  destruct (py_abs_numeric _ _ Hc) as [f Hf].
  destruct (py_abs_numeric _ _ Hs) as [c Hcs].
  exists f, c. unfold build_payload. rewrite Hf, Hcs. auto.
Qed.

Lemma post_economic_event_built (E : Env) (trace_id event_type : value)
    (data : gmap string value) (p : Payload) (w : World) :
  build_payload trace_id event_type data = Ok p ->
  post_economic_event E trace_id event_type data w = delivery E trace_id p w.
Proof.
  intros Hp.
  unfold post_economic_event, delivery, bind, lift, try_except, requests_post.
  rewrite Hp.
  destruct (server E (post_calls w) (economics_request p)) as [resp|e]; simpl.
  - destruct (ok resp); reflexivity.
  - reflexivity.
Qed.

Lemma post_economic_event_raises (E : Env) (trace_id event_type : value)
    (data : gmap string value) (e : exn) (w : World) :
  build_payload trace_id event_type data = Raise e ->
  post_economic_event E trace_id event_type data w = (Raise e, w).
Proof.
  intros Hp. unfold post_economic_event, bind, lift. rewrite Hp. reflexivity.
Qed.

Lemma delivery_returns (E : Env) (trace_id : value) (p : Payload) (w : World) :
  exists b w',
    delivery E trace_id p w = (Ok b, w') /\
    post_calls w' = post_calls w ++ [economics_request p].
Proof.
  unfold delivery.
  destruct (server E (post_calls w) (economics_request p)) as [resp|e].
  - destruct (ok resp); eauto.
  - eauto.
Qed.

Lemma event_type_of_numeric (deal : gmap string value) :
  field_is numeric deal "profit" = true ->
  event_type_of deal = Ok (VStr "TRADE_EXECUTED").
Proof.
  unfold field_is, event_type_of, get.
  destruct (deal !! "profit") as [v|]; simpl.
  - destruct v; simpl; intros H; try discriminate H.
    + destruct (0 <=? Z.b2z b); reflexivity.
    + destruct (0 <=? z); reflexivity.
    + destruct (SFcompare f (S754_zero false)) as [[]|]; reflexivity.
  - reflexivity.
Qed.

Lemma well_formed_deal_fields (d : gmap string value) :
  well_formed_deal d = true ->
  field_is numeric d "profit" = true /\
  field_is numeric d "commission" = true /\
  field_is numeric d "swap" = true /\
  field_is text_or_none d "comment" = true.
Proof.
  unfold well_formed_deal. intros H.
  apply andb_prop in H as [H Hcomment].
  apply andb_prop in H as [H Hswap].
  apply andb_prop in H as [Hprofit Hcommission].
  auto.
Qed.

Lemma mapped_event_well_formed (E : Env) (deal : gmap string value) :
  well_formed_deal deal = true ->
  exists fees_v costs_v,
    py_abs (get deal "commission" (VInt 0)) = Ok fees_v /\
    py_abs (get deal "swap" (VInt 0)) = Ok costs_v /\
    mapped_event E deal =
      Ok {| traceId := trace_id_of E deal;
            type := VStr "TRADE_EXECUTED";
            grossRevenue := get deal "profit" (VInt 0);
            fees := fees_v;
            costs := costs_v;
            currency := VStr "USD";
            source := VStr "mt5" |}.
Proof.
  intros Hwf.
  destruct (well_formed_deal_fields _ Hwf) as (Hp & Hc & Hs & _).
  destruct (build_payload_numeric (trace_id_of E deal)
              (VStr "TRADE_EXECUTED") deal Hc Hs) as (f & c & Hf & Hcs & Hb).
  exists f, c. unfold mapped_event.
  rewrite (event_type_of_numeric _ Hp). auto.
Qed.

(** The loop body on a deal that has a mapped event: the deal line is
    printed, then the event is delivered once. *)
Lemma sync_deal_mapped (E : Env) (deal : gmap string value) (p : Payload)
    (w : World) :
  mapped_event E deal = Ok p ->
  exists b w',
    sync_deal E deal w = (Ok tt, w') /\
    delivery E (trace_id_of E deal) p
      {| post_calls := post_calls w;
         stdout := stdout w
                   ++ [Line_deal (get deal "ticket" (VStr "unknown"))
                         (get deal "symbol" (VStr ""))
                         (get deal "profit" (VInt 0))] |} = (Ok b, w') /\
    post_calls w' = post_calls w ++ [economics_request p].
Proof.
  unfold mapped_event. intros Hm.
  destruct (event_type_of deal) as [ty|e] eqn:Hty; [|discriminate Hm].
  set (w0 := {| post_calls := post_calls w;
                stdout := stdout w
                   ++ [Line_deal (get deal "ticket" (VStr "unknown"))
                         (get deal "symbol" (VStr ""))
                         (get deal "profit" (VInt 0))] |}).
  destruct (delivery_returns E (trace_id_of E deal) p w0) as (b & w' & Hd & Hc).
  exists b, w'. split; [|split; [exact Hd | exact Hc]].
  unfold sync_deal, bind, lift, print. rewrite Hty. fold w0.
  rewrite (post_economic_event_built _ _ _ _ _ _ Hm), Hd. reflexivity.
Qed.

(** The loop over well-formed deals: every deal is worked on, in the order
    of the list, and each one costs exactly one call of [requests.post]. *)
Lemma for_each_sync_deal (E : Env) (deals : list (gmap string value)) :
  Forall (fun d => well_formed_deal d = true) deals ->
  forall w : World,
  exists ps w',
    Forall2 (fun d p => mapped_event E d = Ok p) deals ps /\
    for_each deals (sync_deal E) w = (Ok tt, w') /\
    post_calls w' = post_calls w ++ map economics_request ps.
Proof.
  induction 1 as [|d ds Hd _ IH]; intros w.
  - exists [], w. simpl. rewrite app_nil_r. repeat split; constructor.
  - destruct (mapped_event_well_formed E d Hd) as (f & c & _ & _ & Hm).
    destruct (sync_deal_mapped E d _ w Hm) as (b & w1 & Hrun & _ & Hcalls).
    destruct (IH w1) as (ps & w2 & Hps & Hloop & Hcalls2).
    eexists (_ :: ps), w2. split; [|split].
    + constructor; [exact Hm | exact Hps].
    + simpl. unfold bind. rewrite Hrun. exact Hloop.
    + rewrite Hcalls2, Hcalls. simpl. rewrite <- app_assoc. reflexivity.
Qed.

Lemma get_recent_deals_fetched (E : Env) (since : datetime) (w : World) :
  exists w',
    get_recent_deals E since w = (Ok (fetched E since), w') /\
    post_calls w' = post_calls w.
Proof.
  unfold get_recent_deals, fetched.
  destruct (mt5 E) as [m|].
  - destruct (history_deals_get m since (now E)) as [deals|]; simpl.
    + exists w. split; reflexivity.
    + eexists. split; reflexivity.
  - exists w. split; reflexivity.
Qed.

(** A whole run over well-formed deals. *)
Lemma sync_deals_run (E : Env) (since : datetime) (w : World) :
  Forall (fun d => well_formed_deal d = true) (fetched E since) ->
  exists ps w',
    Forall2 (fun d p => mapped_event E d = Ok p) (fetched E since) ps /\
    sync_deals E since w = (Ok tt, w') /\
    post_calls w' = post_calls w ++ map economics_request ps.
Proof.
  intros Hwf.
  set (w0 := {| post_calls := post_calls w;
                stdout := stdout w ++ [Line_syncing since] |}).
  destruct (get_recent_deals_fetched E since w0) as (w1 & Hget & Hc1).
  set (w2 := {| post_calls := post_calls w1;
                stdout := stdout w1
                          ++ [Line_found (length (fetched E since))] |}).
  destruct (for_each_sync_deal E _ Hwf w2) as (ps & w3 & Hps & Hloop & Hc3).
  exists ps, w3. split; [exact Hps | split].
  - unfold sync_deals, bind, print. fold w0. rewrite Hget. fold w2. exact Hloop.
  - rewrite Hc3. simpl. rewrite Hc1. reflexivity.
Qed.

Lemma mapped_events_functional (E : Env) (deals : list (gmap string value))
    (ps ps' : list Payload) :
  Forall2 (fun d p => mapped_event E d = Ok p) deals ps ->
  Forall2 (fun d p => mapped_event E d = Ok p) deals ps' ->
  ps = ps'.
Proof.
  intros H. revert ps'.
  induction H as [|d p ds ps Hd _ IH]; intros ps' H'.
  - inversion H'. reflexivity.
  - inversion H' as [|d' p' ds' qs Hd' Hqs]; subst.
    rewrite Hd in Hd'. injection Hd' as ->. f_equal. apply IH. exact Hqs.
Qed.

Lemma py_abs_number (d : gmap string value) (key : string) :
  field_is number d key = true ->
  exists a, py_abs (get d key (VInt 0)) = Ok a /\ py_ge_zero a = Ok true.
Proof.
  unfold field_is, get.
  destruct (d !! key) as [v|]; simpl.
  - destruct v as [|b|z|f|s]; simpl; intros H; try discriminate H.
    + exists (VInt (Z.b2z b)). split; [reflexivity|]. destruct b; reflexivity.
    + exists (VInt (Z.abs z)). split; [reflexivity|]. simpl.
      f_equal. apply Z.leb_le, Z.abs_nonneg.
    + exists (VFloat (SFabs f)). split; [reflexivity|].
      destruct f as [sg|sg| |sg m e]; simpl; try reflexivity. discriminate H.
  - intros _. exists (VInt 0). split; reflexivity.
Qed.

(** Why [number] leaves NaN out: its absolute value is NaN again, and NaN
    does not compare [>= 0]. *)
Remark py_abs_nan :
  py_abs (VFloat S754_nan) = Ok (VFloat S754_nan) /\
  py_ge_zero (VFloat S754_nan) = Ok false.
Proof. split; reflexivity. Qed.

Lemma build_payload_fields (trace_id event_type : value)
    (data : gmap string value) (p : Payload) :
  build_payload trace_id event_type data = Ok p ->
  traceId p = trace_id /\ type p = event_type /\
  grossRevenue p = get data "profit" (VInt 0) /\
  py_abs (get data "commission" (VInt 0)) = Ok (fees p) /\
  py_abs (get data "swap" (VInt 0)) = Ok (costs p) /\
  currency p = VStr "USD" /\ source p = VStr "mt5".
Proof.
  unfold build_payload.
  destruct (py_abs (get data "commission" (VInt 0))) as [f|]; [|discriminate].
  destruct (py_abs (get data "swap" (VInt 0))) as [c|]; [|discriminate].
  intros [= <-]. simpl. repeat split; reflexivity.
Qed.

Lemma number_numeric (d : gmap string value) (key : string) :
  field_is number d key = true -> field_is numeric d key = true.
Proof.
  unfold field_is. destruct (d !! key) as [v|]; [|reflexivity].
  destruct v as [| | |f|]; simpl; easy.
Qed.

Lemma py_str_float_repr (E E' : Env) (v : value) :
  float_repr E' = float_repr E -> py_str E' v = py_str E v.
Proof. intros H. destruct v; simpl; try reflexivity. rewrite H. reflexivity. Qed.

Lemma mapped_event_float_repr (E E' : Env) (deal : gmap string value) :
  float_repr E' = float_repr E -> mapped_event E' deal = mapped_event E deal.
Proof.
  intros H. unfold mapped_event, trace_id_of.
  rewrite (py_str_float_repr E E' _ H). reflexivity.
Qed.

(** ** The event mapper *)

Lemma py_abs_cases (d : gmap string value) (key : string) (a : value) :
  py_abs (get d key (VInt 0)) = Ok a ->
  (d !! key = None -> a = VInt 0) /\
  (forall b, d !! key = Some (VBool b) -> a = VInt (Z.b2z b)) /\
  (forall z, d !! key = Some (VInt z) -> a = VInt (Z.abs z)) /\
  (forall f, d !! key = Some (VFloat f) -> a = VFloat (SFabs f)).
Proof.
  unfold get. intros Ha.
  repeat split; intros; match goal with Hk : d !! key = _ |- _ =>
    rewrite Hk in Ha end; injection Ha as <-; reflexivity.
Qed.

Lemma py_abs_nonnegative (d : gmap string value) (key : string) (a : value) :
  field_is number d key = true ->
  py_abs (get d key (VInt 0)) = Ok a ->
  nonnegative a.
Proof.
  unfold field_is, get.
  destruct (d !! key) as [v|]; simpl.
  - destruct v as [|b|z|f|s]; simpl; intros H [= <-]; try discriminate H.
    + constructor. destruct b; simpl; lia.
    + constructor. apply Z.abs_nonneg.
    + destruct f as [sg|sg| |sg m e]; simpl; try constructor. discriminate H.
  - intros _ [= <-]. constructor. lia.
Qed.

(** C2, as stated, fails on NaN: a deal whose commission is the float NaN
    is mapped to an event whose fees are NaN again, and NaN does not compare
    [>= 0]. *)
Lemma nan_commission_fees_not_nonnegative :
  well_formed_deal nan_deal = true /\
  exists p,
    mapped_event (mock_env ok_server) nan_deal = Ok p /\
    fees p = VFloat S754_nan /\
    py_ge_zero (fees p) = Ok false /\
    ~ nonnegative (fees p).
Proof.
  split; [reflexivity|].
  eexists. split; [reflexivity|]. simpl.
  split; [reflexivity|]. split; [reflexivity|].
  intros Hn. inversion Hn.
Qed.

(** C2, amended. Absolute values: for a deal whose commission and swap,
    where present, are numbers other than NaN, the payload is built; its
    fees are the absolute value of the commission stored in the deal and its
    costs the absolute value of the swap stored in the deal (0 for a field
    that is missing); both are not below zero and compare [>= 0] whatever
    the sign in the deal; and this payload is the one [post_economic_event]
    sends. *)
Theorem fees_costs_absolute (E : Env) (trace_id event_type : value)
    (data : gmap string value) (w : World) :
  field_is number data "commission" = true ->
  field_is number data "swap" = true ->
  exists p,
    build_payload trace_id event_type data = Ok p /\
    (data !! "commission" = None -> fees p = VInt 0) /\
    (forall b, data !! "commission" = Some (VBool b) ->
       fees p = VInt (Z.b2z b)) /\
    (forall z, data !! "commission" = Some (VInt z) ->
       fees p = VInt (Z.abs z)) /\
    (forall f, data !! "commission" = Some (VFloat f) ->
       fees p = VFloat (SFabs f)) /\
    (data !! "swap" = None -> costs p = VInt 0) /\
    (forall b, data !! "swap" = Some (VBool b) ->
       costs p = VInt (Z.b2z b)) /\
    (forall z, data !! "swap" = Some (VInt z) ->
       costs p = VInt (Z.abs z)) /\
    (forall f, data !! "swap" = Some (VFloat f) ->
       costs p = VFloat (SFabs f)) /\
    nonnegative (fees p) /\
    nonnegative (costs p) /\
    py_ge_zero (fees p) = Ok true /\
    py_ge_zero (costs p) = Ok true /\
    post_calls (snd (post_economic_event E trace_id event_type data w))
      = post_calls w ++ [economics_request p].
Proof.
  intros Hc Hs.
  destruct (py_abs_number _ _ Hc) as (f & Hf & Hf0).
  destruct (py_abs_number _ _ Hs) as (c & Hcs & Hc0).
  destruct (build_payload_numeric trace_id event_type data
              (number_numeric _ _ Hc) (number_numeric _ _ Hs))
    as (f' & c' & Hf' & Hc' & Hb).
  rewrite Hf in Hf'. injection Hf' as <-.
  rewrite Hcs in Hc'. injection Hc' as <-.
  destruct (py_abs_cases _ _ _ Hf) as (Hf1 & Hf2 & Hf3 & Hf4).
  destruct (py_abs_cases _ _ _ Hcs) as (Hc1 & Hc2 & Hc3 & Hc4).
  pose proof (py_abs_nonnegative _ _ _ Hc Hf) as Hfn.
  pose proof (py_abs_nonnegative _ _ _ Hs Hcs) as Hcn.
  eexists. split; [exact Hb|]. simpl.
  repeat split; try assumption.
  rewrite (post_economic_event_built _ _ _ _ _ _ Hb).
  destruct (delivery_returns E trace_id
              {| traceId := trace_id; type := event_type;
                 grossRevenue := get data "profit" (VInt 0);
                 fees := f; costs := c;
                 currency := VStr "USD"; source := VStr "mt5" |} w)
    as (b & w' & Hd & Hcalls).
  rewrite Hd. exact Hcalls.
Qed.

(** The first deal of the scenario: commission -0.5 and swap -0.1 give fees
    0.5 and costs 0.1. *)
Lemma fees_costs_absolute_witness :
  field_is number deal_1 "commission" = true /\
  field_is number deal_1 "swap" = true /\
  exists p,
    build_payload (VStr "mt5-1") (VStr "TRADE_EXECUTED") deal_1 = Ok p /\
    fees p = VFloat f_0_50 /\
    costs p = VFloat f_0_1 /\
    py_ge_zero (fees p) = Ok true /\
    py_ge_zero (costs p) = Ok true /\
    post_calls (snd (post_economic_event (mock_env ok_server) (VStr "mt5-1")
                       (VStr "TRADE_EXECUTED") deal_1 empty_world))
      = post_calls empty_world ++ [economics_request p].
Proof.
  assert (Hc : field_is number deal_1 "commission" = true) by reflexivity.
  assert (Hs : field_is number deal_1 "swap" = true) by reflexivity.
  assert (Hlc : deal_1 !! "commission" = Some (VFloat f_neg_0_50))
    by reflexivity.
  assert (Hls : deal_1 !! "swap" = Some (VFloat f_neg_0_10)) by reflexivity.
  split; [exact Hc|]. split; [exact Hs|].
  destruct (fees_costs_absolute (mock_env ok_server) (VStr "mt5-1")
              (VStr "TRADE_EXECUTED") deal_1 empty_world Hc Hs)
    as (p & Hb & _ & _ & _ & Hfees & _ & _ & _ & Hcosts & _ & _ & Hf0 & Hc0
        & Hsent).
  exists p. split; [exact Hb|].
  split; [exact (Hfees _ Hlc)|]. split; [exact (Hcosts _ Hls)|].
  split; [exact Hf0|]. split; [exact Hc0 | exact Hsent].
Defined.

Lemma trace_id_of_text (E : Env) (deal : gmap string value) :
  field_is text_or_none deal "comment" = true ->
  trace_id_of E deal =
    if has_comment deal
    then get deal "comment" VNone
    else VStr ("mt5-" +:+ py_str E (get deal "ticket" (VStr "unknown"))).
Proof.
  unfold field_is, trace_id_of, has_comment, py_or, get.
  destruct (deal !! "comment") as [v|]; simpl; [|reflexivity].
  destruct v as [|b|z|f|s]; simpl; intros H; try discriminate H.
  - reflexivity.
  - destruct (String.eqb s ""); reflexivity.
Qed.



(** C4. The mapper is total and pure on well-formed deals: a mapped event
    exists, a missing profit, commission or swap counts as 0 and a missing
    comment gives the synthesized trace id, and in every world and against
    every endpoint the loop body succeeds and sends this one event, so the
    event depends on the deal alone. *)
Theorem mapped_event_total (E : Env) (deal : gmap string value) :
  well_formed_deal deal = true ->
  exists p,
    mapped_event E deal = Ok p /\
    (deal !! "profit" = None -> grossRevenue p = VInt 0) /\
    (deal !! "commission" = None -> fees p = VInt 0) /\
    (deal !! "swap" = None -> costs p = VInt 0) /\
    (deal !! "comment" = None ->
     traceId p
       = VStr ("mt5-" +:+ py_str E (get deal "ticket" (VStr "unknown")))) /\
    forall (E' : Env) (w : World),
      float_repr E' = float_repr E ->
      exists w',
        sync_deal E' deal w = (Ok tt, w') /\
        post_calls w' = post_calls w ++ [economics_request p].
Proof.
  intros Hwf.
  destruct (mapped_event_well_formed E deal Hwf) as (f & c & Hf & Hc & Hm).
  eexists. split; [exact Hm|]. simpl.
  split; [|split; [|split; [|split]]].
  - intros Hnone. unfold get. rewrite Hnone. reflexivity.
  - intros Hnone. unfold get in Hf. rewrite Hnone in Hf.
    injection Hf as <-. reflexivity.
  - intros Hnone. unfold get in Hc. rewrite Hnone in Hc.
    injection Hc as <-. reflexivity.
  - intros Hnone. unfold trace_id_of, py_or, get. rewrite Hnone. reflexivity.
  - intros E' w Hrepr.
    rewrite <- (mapped_event_float_repr E E' deal Hrepr) in Hm.
    destruct (sync_deal_mapped E' deal _ w Hm) as (b & w' & Hrun & _ & Hcalls).
    exists w'. split; [exact Hrun | exact Hcalls].
Qed.

Lemma mapped_event_total_witness :
  well_formed_deal bare_deal = true /\
  exists p,
    mapped_event (mock_env timeout_server) bare_deal = Ok p /\
    p = {| traceId := VStr "mt5-7"; type := VStr "TRADE_EXECUTED";
           grossRevenue := VInt 0; fees := VInt 0; costs := VInt 0;
           currency := VStr "USD"; source := VStr "mt5" |}.
Proof.
  assert (Hwf : well_formed_deal bare_deal = true) by reflexivity.
  split; [exact Hwf|].
  destruct (mapped_event_total (mock_env timeout_server) bare_deal Hwf)
    as (p & Hm & _).
  exists p. split; [exact Hm|].
  vm_compute in Hm. injection Hm as <-. reflexivity.
Defined.

(** C9. Event type: the event of a well-formed deal has the type
    [TRADE_EXECUTED], whatever the sign of the profit. *)
Theorem event_type_constant (E : Env) (deal : gmap string value) :
  well_formed_deal deal = true ->
  event_type_of deal = Ok (VStr "TRADE_EXECUTED") /\
  exists p, mapped_event E deal = Ok p /\ type p = VStr "TRADE_EXECUTED".
Proof.
  intros Hwf.
  destruct (well_formed_deal_fields _ Hwf) as (Hp & _).
  split; [exact (event_type_of_numeric _ Hp)|].
  destruct (mapped_event_well_formed E deal Hwf) as (f & c & _ & _ & Hm).
  eexists. split; [exact Hm | reflexivity].
Qed.

(** A gain and a loss. *)
Lemma event_type_constant_witness :
  (well_formed_deal deal_1 = true /\
   event_type_of deal_1 = Ok (VStr "TRADE_EXECUTED")) /\
  (well_formed_deal deal_2 = true /\
   event_type_of deal_2 = Ok (VStr "TRADE_EXECUTED")).
Proof.
  split; (split; [reflexivity|]).
  - exact (proj1 (event_type_constant (mock_env ok_server) deal_1 eq_refl)).
  - exact (proj1 (event_type_constant (mock_env ok_server) deal_2 eq_refl)).
Defined.

(** ** Delivery *)

(** C10, as stated, fails: the payload is built before the [try], so a dict
    whose commission is [None] makes [abs] raise a [TypeError] that leaves
    [post_economic_event]; no boolean is returned and nothing was sent. *)
Lemma post_economic_event_type_error :
  post_economic_event (mock_env ok_server) (VStr "mt5-9")
    (VStr "TRADE_EXECUTED") null_commission empty_world
  = (Raise TypeError, empty_world).
Proof. reflexivity. Qed.

(** C10, amended. When the commission and the swap of [data] are numbers or
    missing, [post_economic_event] returns a boolean and raises nothing: it
    returns [True] exactly when the call of [requests.post] comes back with a
    response whose [ok] is true, and [False] both for a response that is not
    [ok] and for any exception of the call. *)
Theorem post_economic_event_returns_bool (E : Env) (trace_id event_type : value)
    (data : gmap string value) (w : World) :
  field_is numeric data "commission" = true ->
  field_is numeric data "swap" = true ->
  exists p w',
    build_payload trace_id event_type data = Ok p /\
    post_economic_event E trace_id event_type data w =
      (Ok match server E (post_calls w) (economics_request p) with
          | Responded resp => ok resp
          | Failed _ => false
          end, w').
Proof.
  intros Hc Hs.
  destruct (build_payload_numeric trace_id event_type data Hc Hs)
    as (f & c & _ & _ & Hb).
  match type of Hb with _ = Ok ?q => set (p := q) in * end.
  exists p. rewrite (post_economic_event_built _ _ _ _ _ _ Hb).
  unfold delivery.
  destruct (server E (post_calls w) (economics_request p)) as [resp|e].
  - destruct (ok resp); eexists; (split; [exact Hb | reflexivity]).
  - eexists; (split; [exact Hb | reflexivity]).
Qed.

Lemma post_economic_event_returns_bool_witness :
  field_is numeric deal_1 "commission" = true /\
  field_is numeric deal_1 "swap" = true /\
  fst (post_economic_event (mock_env ok_server) (VStr "mt5-1")
         (VStr "TRADE_EXECUTED") deal_1 empty_world) = Ok true /\
  fst (post_economic_event (mock_env timeout_server) (VStr "mt5-1")
         (VStr "TRADE_EXECUTED") deal_1 empty_world) = Ok false.
Proof.
  split; [reflexivity|]. split; [reflexivity|]. split.
  - destruct (post_economic_event_returns_bool (mock_env ok_server)
                (VStr "mt5-1") (VStr "TRADE_EXECUTED") deal_1 empty_world
                eq_refl eq_refl) as (p & w' & _ & ->).
    reflexivity.
  - destruct (post_economic_event_returns_bool (mock_env timeout_server)
                (VStr "mt5-1") (VStr "TRADE_EXECUTED") deal_1 empty_world
                eq_refl eq_refl) as (p & w' & _ & ->).
    reflexivity.
Defined.

(** C6. No retry on rejection: when the endpoint answers a delivery with a
    4xx status, [post_economic_event] has made exactly one call of
    [requests.post], and it reports the rejection at once: it returns
    [False] and prints the failure line with the status and the body. *)
Theorem rejection_not_retried (E : Env) (trace_id event_type : value)
    (data : gmap string value) (w : World) (p : Payload) (resp : Response) :
  build_payload trace_id event_type data = Ok p ->
  server E (post_calls w) (economics_request p) = Responded resp ->
  400 <= status_code resp < 500 ->
  post_economic_event E trace_id event_type data w =
    (Ok false,
     {| post_calls := post_calls w ++ [economics_request p];
        stdout := stdout w ++ [Line_failed (status_code resp) (text resp)] |}).
Proof.
  intros Hb Hsrv Hstatus.
  rewrite (post_economic_event_built _ _ _ _ _ _ Hb).
  unfold delivery. rewrite Hsrv.
  assert (Hok : ok resp = false).
  { unfold ok. apply negb_false_iff, andb_true_iff.
    split; [apply Z.leb_le | apply Z.ltb_lt]; lia. }
  rewrite Hok. reflexivity.
Qed.

Lemma rejection_not_retried_witness :
  build_payload (VStr "mt5-1") (VStr "TRADE_EXECUTED") deal_1 = Ok payload_1 /\
  server (mock_env rejecting_server) (post_calls empty_world)
    (economics_request payload_1)
  = Responded {| status_code := 400; text := "bad request" |} /\
  post_economic_event (mock_env rejecting_server) (VStr "mt5-1")
    (VStr "TRADE_EXECUTED") deal_1 empty_world
  = (Ok false,
     {| post_calls := [economics_request payload_1];
        stdout := [Line_failed 400 "bad request"] |}).
Proof.
  split; [reflexivity|]. split; [reflexivity|].
  apply (rejection_not_retried (mock_env rejecting_server) (VStr "mt5-1")
           (VStr "TRADE_EXECUTED") deal_1 empty_world payload_1
           {| status_code := 400; text := "bad request" |});
    [reflexivity | reflexivity | simpl; lia].
Defined.

(** C5, as stated, fails: nothing is retried.  Against an endpoint that
    times out on every call, a whole run over the mock record makes one call
    of [requests.post], not three, and then prints the error. *)
Lemma timeout_not_retried :
  let w := snd (sync_deals (mock_env timeout_server) epoch empty_world) in
  post_calls w = [economics_request mock_payload] /\
  length (post_calls w) <> 3%nat /\
  stdout w = [Line_syncing epoch; Line_found 1;
              Line_deal (VInt 12345678) (VStr "EURUSD") (VFloat f_12_50);
              Line_error ReadTimeout].
Proof.
  vm_compute. repeat split; congruence.
Qed.

(** C5, amended. A delivery is attempted exactly once, without retry or
    backoff: whatever the endpoint does, [post_economic_event] makes one call
    of [requests.post]; when that one attempt fails transiently (an
    exception such as a timeout or a refused connection, or a 5xx status)
    the delivery is reported as failed: [False] is returned, the error is
    printed, and no line says the event was posted. *)
Theorem delivery_attempted_once (E : Env) (trace_id event_type : value)
    (data : gmap string value) (w : World) (p : Payload) :
  build_payload trace_id event_type data = Ok p ->
  exists b w',
    post_economic_event E trace_id event_type data w = (Ok b, w') /\
    post_calls w' = post_calls w ++ [economics_request p] /\
    (forall e, server E (post_calls w) (economics_request p) = Failed e ->
       b = false /\ stdout w' = stdout w ++ [Line_error e]) /\
    (forall resp,
       server E (post_calls w) (economics_request p) = Responded resp ->
       500 <= status_code resp < 600 ->
       b = false /\
       stdout w' = stdout w ++ [Line_failed (status_code resp) (text resp)]).
Proof.
  intros Hb.
  rewrite (post_economic_event_built _ _ _ _ _ _ Hb).
  unfold delivery.
  destruct (server E (post_calls w) (economics_request p)) as [resp|e].
  - destruct (ok resp) eqn:Hok; eexists; eexists;
      (split; [reflexivity|]); (split; [reflexivity|]);
      (split; [intros e [=] |]); intros r [= <-] Hstatus.
    + exfalso. unfold ok in Hok. apply negb_true_iff, andb_false_iff in Hok.
      destruct Hok as [H|H]; [apply Z.leb_gt in H | apply Z.ltb_ge in H]; lia.
    + split; reflexivity.
  - eexists; eexists. split; [reflexivity|]. split; [reflexivity|].
    split; [intros e' [= <-]; split; reflexivity | intros r [=]].
Qed.

Lemma delivery_attempted_once_witness :
  build_payload (VStr "mt5-1") (VStr "TRADE_EXECUTED") deal_1 = Ok payload_1 /\
  exists b w',
    post_economic_event (mock_env timeout_server) (VStr "mt5-1")
      (VStr "TRADE_EXECUTED") deal_1 empty_world = (Ok b, w') /\
    post_calls w' = [economics_request payload_1] /\
    b = false /\ stdout w' = [Line_error ReadTimeout].
Proof.
  split; [reflexivity|].
  destruct (delivery_attempted_once (mock_env timeout_server) (VStr "mt5-1")
              (VStr "TRADE_EXECUTED") deal_1 empty_world payload_1 eq_refl)
    as (b & w' & Hrun & Hcalls & Hexn & _).
  exists b, w'. split; [exact Hrun|]. split; [exact Hcalls|].
  exact (Hexn ReadTimeout eq_refl).
Defined.

(** ** Sync runs *)

(** C7, as stated, fails: a failed fetch is turned into an empty batch.
    When the terminal cannot give the history, [get_recent_deals] prints the
    error and returns the empty list, and the run goes on and ends as a run
    over no deals does, printing that it found 0 deals. *)
Lemma fetch_failure_not_surfaced :
  get_recent_deals (live_env None ok_server) epoch empty_world
  = (Ok [],
     {| post_calls := [];
        stdout := [Line_get_deals_failed (-1, "Terminal: Call failed")] |}) /\
  sync_deals (live_env None ok_server) epoch empty_world
  = (Ok tt,
     {| post_calls := [];
        stdout := [Line_syncing epoch;
                   Line_get_deals_failed (-1, "Terminal: Call failed");
                   Line_found 0] |}) /\
  fst (sync_deals (live_env None ok_server) epoch empty_world)
  = fst (sync_deals (live_env (Some []) ok_server) epoch empty_world).
Proof. repeat split; reflexivity. Qed.

(** C7, amended. When the fetch fails, the failure is printed and the run
    continues with an empty batch: no record is processed, nothing is sent,
    and the run ends normally after printing that it found 0 deals. *)
Theorem fetch_failure_empty_batch (E : Env) (m : MT5) (since : datetime)
    (w : World) :
  mt5 E = Some m ->
  history_deals_get m since (now E) = None ->
  fetched E since = [] /\
  sync_deals E since w
  = (Ok tt,
     {| post_calls := post_calls w;
        stdout := stdout w ++ [Line_syncing since;
                               Line_get_deals_failed (last_error m);
                               Line_found 0] |}).
Proof.
  intros Hm Hh. split.
  - unfold fetched. rewrite Hm, Hh. reflexivity.
  - unfold sync_deals, get_recent_deals, bind, print, ret. rewrite Hm, Hh.
    simpl. rewrite <- !app_assoc. reflexivity.
Qed.

Lemma fetch_failure_empty_batch_witness :
  mt5 (live_env None timeout_server)
  = Some {| history_deals_get := fun _ _ => None;
            last_error := (-1, "Terminal: Call failed") |} /\
  fetched (live_env None timeout_server) epoch = [] /\
  fst (sync_deals (live_env None timeout_server) epoch empty_world) = Ok tt.
Proof.
  split; [reflexivity|].
  destruct (fetch_failure_empty_batch (live_env None timeout_server)
              {| history_deals_get := fun _ _ => None;
                 last_error := (-1, "Terminal: Call failed") |}
              epoch empty_world eq_refl eq_refl) as [Hf Hrun].
  split; [exact Hf|]. rewrite Hrun. reflexivity.
Defined.

(** C8, as stated, fails: nothing is deduplicated.  A batch in which the
    deal with ticket 1 comes twice leads to two deliveries of its event. *)
Lemma duplicate_ticket_delivered_twice :
  sync_deals (live_env (Some [deal_1; deal_1]) ok_server) epoch empty_world
  = (Ok tt,
     {| post_calls := [economics_request payload_1;
                       economics_request payload_1];
        stdout := [Line_syncing epoch; Line_found 2;
                   Line_deal (VInt 1) (VStr "") (VFloat f_10);
                   Line_posted (VStr "mt5-1");
                   Line_deal (VInt 1) (VStr "") (VFloat f_10);
                   Line_posted (VStr "mt5-1")] |}).
Proof. reflexivity. Qed.

(** C8, amended. Within one run the deals are processed in the order the
    source returned them, and one delivery is attempted for every fetched
    record, a repeated ticket included: the calls a run over well-formed
    deals adds are the events of the fetched deals, one for one and in
    order. *)
Theorem sync_in_source_order (E : Env) (since : datetime) (w : World) :
  Forall (fun d => well_formed_deal d = true) (fetched E since) ->
  exists ps w',
    sync_deals E since w = (Ok tt, w') /\
    Forall2 (fun d p => mapped_event E d = Ok p) (fetched E since) ps /\
    post_calls w' = post_calls w ++ map economics_request ps /\
    length (post_calls w')
    = (length (post_calls w) + length (fetched E since))%nat.
Proof.
  intros Hwf.
  destruct (sync_deals_run E since w Hwf) as (ps & w' & Hps & Hrun & Hcalls).
  exists ps, w'. repeat split; try assumption.
  rewrite Hcalls, length_app, length_map.
  rewrite (Forall2_length _ _ _ Hps). reflexivity.
Qed.

(** The scenario of the specification: two deals, two events, in order. *)
Lemma sync_in_source_order_witness :
  Forall (fun d => well_formed_deal d = true)
    (fetched (live_env (Some [deal_1; deal_2]) ok_server) epoch) /\
  post_calls (snd (sync_deals (live_env (Some [deal_1; deal_2]) ok_server)
                     epoch empty_world))
  = [economics_request payload_1; economics_request payload_2].
Proof.
  assert (Hwf : Forall (fun d => well_formed_deal d = true)
                  (fetched (live_env (Some [deal_1; deal_2]) ok_server) epoch)).
  { repeat constructor. }
  split; [exact Hwf|].
  destruct (sync_in_source_order (live_env (Some [deal_1; deal_2]) ok_server)
              epoch empty_world Hwf) as (ps & w' & Hrun & _ & _ & _).
  rewrite Hrun. simpl. vm_compute in Hrun. injection Hrun as <-. reflexivity.
Defined.

(** C1, as stated, fails: nothing remembers a delivery.  In mock mode, with
    an endpoint that accepts everything, a second run right after the first
    posts the event of the mock record again and prints that it was posted;
    nothing is skipped as already synced. *)
Lemma second_run_delivers_again :
  let E := mock_env ok_server in
  let w1 := snd (sync_deals E epoch empty_world) in
  let w2 := snd (sync_deals E epoch w1) in
  post_calls w1 = [economics_request mock_payload] /\
  post_calls w2 = [economics_request mock_payload;
                   economics_request mock_payload] /\
  post_calls w2 <> post_calls w1 /\
  stdout w2 = stdout w1 ++ stdout w1 /\
  In (Line_posted (VStr "demo-order-001")) (stdout w1).
Proof.
  vm_compute. repeat split; try congruence. auto 10.
Qed.

(** C1, amended. A run keeps no record of what was delivered: every run
    posts one event for every deal it fetches, whatever earlier runs did.
    Two runs in a row add the events of the first window and then the events
    of the second, so a deal that lies in both windows is delivered in both
    runs; with no new deals between the runs the second run posts exactly
    the events of the first once more. *)
Theorem sync_runs_repeat_deliveries (E : Env) (since since' : datetime)
    (w : World) :
  Forall (fun d => well_formed_deal d = true) (fetched E since) ->
  Forall (fun d => well_formed_deal d = true) (fetched E since') ->
  exists ps ps' w1 w2,
    sync_deals E since w = (Ok tt, w1) /\
    sync_deals E since' w1 = (Ok tt, w2) /\
    Forall2 (fun d p => mapped_event E d = Ok p) (fetched E since) ps /\
    Forall2 (fun d p => mapped_event E d = Ok p) (fetched E since') ps' /\
    post_calls w2
    = post_calls w ++ map economics_request ps ++ map economics_request ps' /\
    (fetched E since' = fetched E since -> ps' = ps).
Proof.
  intros Hwf Hwf'.
  destruct (sync_deals_run E since w Hwf) as (ps & w1 & Hps & Hrun & Hc).
  destruct (sync_deals_run E since' w1 Hwf') as (ps' & w2 & Hps' & Hrun' & Hc').
  exists ps, ps', w1, w2. repeat split; try assumption.
  - rewrite Hc', Hc, <- app_assoc. reflexivity.
  - intros Hsame. rewrite Hsame in Hps'.
    exact (mapped_events_functional E _ _ _ Hps' Hps).
Qed.

Lemma sync_runs_repeat_deliveries_witness :
  Forall (fun d => well_formed_deal d = true)
    (fetched (mock_env ok_server) epoch) /\
  exists w1 w2,
    sync_deals (mock_env ok_server) epoch empty_world = (Ok tt, w1) /\
    sync_deals (mock_env ok_server) epoch w1 = (Ok tt, w2) /\
    length (post_calls w2) = 2%nat.
Proof.
  assert (Hwf : Forall (fun d => well_formed_deal d = true)
                  (fetched (mock_env ok_server) epoch)).
  { repeat constructor. }
  split; [exact Hwf|].
  destruct (sync_runs_repeat_deliveries (mock_env ok_server) epoch epoch
              empty_world Hwf Hwf)
    as (ps & ps' & w1 & w2 & Hrun & Hrun' & Hps & Hps' & Hcalls & _).
  exists w1, w2. split; [exact Hrun|]. split; [exact Hrun'|].
  rewrite Hcalls, !length_app, !length_map.
  rewrite <- (Forall2_length _ _ _ Hps), <- (Forall2_length _ _ _ Hps').
  reflexivity.
Defined.

(** ** Malformed deals *)

Lemma py_abs_not_numeric (d : gmap string value) (key : string) :
  field_is numeric d key = false ->
  py_abs (get d key (VInt 0)) = Raise TypeError.
Proof.
  unfold field_is, get.
  destruct (d !! key) as [v|]; simpl; [|discriminate].
  destruct v; simpl; intros H; try discriminate H; reflexivity.
Qed.

Lemma py_abs_type_error (v : value) (e : exn) :
  py_abs v = Raise e -> e = TypeError.
Proof. destruct v; simpl; congruence. Qed.

Lemma build_payload_not_numeric (trace_id event_type : value)
    (data : gmap string value) :
  field_is numeric data "commission" = false \/
  field_is numeric data "swap" = false ->
  build_payload trace_id event_type data = Raise TypeError.
Proof.
  unfold build_payload. intros [Hc|Hs].
  - rewrite (py_abs_not_numeric _ _ Hc). reflexivity.
  - rewrite (py_abs_not_numeric _ _ Hs).
    destruct (py_abs (get data "commission" (VInt 0))) as [f|e] eqn:Hf;
      [reflexivity|].
    rewrite (py_abs_type_error _ _ Hf). reflexivity.
Qed.

(** X1. A dict whose commission or swap is present and not a number makes
    [post_economic_event] raise a [TypeError] before anything happens: no
    request is sent and no line is printed. *)
Theorem malformed_fee_raises_before_send (E : Env)
    (trace_id event_type : value) (data : gmap string value) (w : World) :
  field_is numeric data "commission" = false \/
  field_is numeric data "swap" = false ->
  post_economic_event E trace_id event_type data w = (Raise TypeError, w).
Proof.
  intros Hbad. apply post_economic_event_raises.
  apply build_payload_not_numeric. exact Hbad.
Qed.

Lemma malformed_fee_raises_before_send_witness :
  (field_is numeric null_commission "commission" = false \/
   field_is numeric null_commission "swap" = false) /\
  post_economic_event (mock_env ok_server) (VStr "mt5-9")
    (VStr "TRADE_EXECUTED") null_commission empty_world
  = (Raise TypeError, empty_world).
Proof.
  assert (Hbad : field_is numeric null_commission "commission" = false \/
                 field_is numeric null_commission "swap" = false).
  { left. reflexivity. }
  split; [exact Hbad|].
  exact (malformed_fee_raises_before_send (mock_env ok_server) (VStr "mt5-9")
           (VStr "TRADE_EXECUTED") null_commission empty_world Hbad).
Defined.

Lemma event_type_of_not_numeric (deal : gmap string value) :
  field_is numeric deal "profit" = false ->
  event_type_of deal = Raise TypeError.
Proof.
  unfold field_is, event_type_of, get.
  destruct (deal !! "profit") as [v|]; simpl; [|discriminate].
  destruct v; simpl; intros H; try discriminate H; reflexivity.
Qed.

Lemma mapped_event_not_numeric (E : Env) (deal : gmap string value) :
  numeric_fields deal = false -> mapped_event E deal = Raise TypeError.
Proof.
  unfold numeric_fields, mapped_event. intros H.
  destruct (field_is numeric deal "profit") eqn:Hp.
  - rewrite (event_type_of_numeric _ Hp).
    apply build_payload_not_numeric. simpl in H.
    destruct (field_is numeric deal "commission"); [right; exact H | left; reflexivity].
  - rewrite (event_type_of_not_numeric _ Hp). reflexivity.
Qed.

(** The loop body on a deal without a mapped event: the exception leaves
    it, and nothing was sent. *)
Lemma sync_deal_unmapped (E : Env) (deal : gmap string value) (e : exn)
    (w : World) :
  mapped_event E deal = Raise e ->
  exists w', sync_deal E deal w = (Raise e, w') /\ post_calls w' = post_calls w.
Proof.
  unfold mapped_event, sync_deal, bind, lift, print. intros Hm.
  destruct (event_type_of deal) as [ty|e'] eqn:Hty.
  - rewrite (post_economic_event_raises _ _ _ _ _ _ Hm).
    eexists. split; reflexivity.
  - injection Hm as ->. eexists. split; reflexivity.
Qed.

Lemma for_each_sync_deal_stops (E : Env) (good rest : list (gmap string value))
    (bad : gmap string value) (e : exn) :
  Forall (fun d => well_formed_deal d = true) good ->
  mapped_event E bad = Raise e ->
  forall w : World,
  exists ps w',
    Forall2 (fun d p => mapped_event E d = Ok p) good ps /\
    for_each (good ++ bad :: rest) (sync_deal E) w = (Raise e, w') /\
    post_calls w' = post_calls w ++ map economics_request ps.
Proof.
  intros Hgood Hbad.
  induction Hgood as [|d ds Hd _ IH]; intros w.
  - destruct (sync_deal_unmapped E bad e w Hbad) as (w' & Hrun & Hcalls).
    exists [], w'. split; [constructor|]. split.
    + simpl. unfold bind. rewrite Hrun. reflexivity.
    + simpl. rewrite app_nil_r. exact Hcalls.
  - destruct (mapped_event_well_formed E d Hd) as (f & c & _ & _ & Hm).
    destruct (sync_deal_mapped E d _ w Hm) as (b & w1 & Hrun & _ & Hcalls).
    destruct (IH w1) as (ps & w2 & Hps & Hloop & Hcalls2).
    eexists (_ :: ps), w2. split; [|split].
    + constructor; [exact Hm | exact Hps].
    + simpl. unfold bind. rewrite Hrun. exact Hloop.
    + rewrite Hcalls2, Hcalls. simpl. rewrite <- app_assoc. reflexivity.
Qed.

Lemma sync_deals_stops (E : Env) (since : datetime) (w : World)
    (good rest : list (gmap string value)) (bad : gmap string value) :
  fetched E since = good ++ bad :: rest ->
  Forall (fun d => well_formed_deal d = true) good ->
  numeric_fields bad = false ->
  exists ps w',
    Forall2 (fun d p => mapped_event E d = Ok p) good ps /\
    sync_deals E since w = (Raise TypeError, w') /\
    post_calls w' = post_calls w ++ map economics_request ps.
Proof.
  intros Hfetched Hgood Hbad.
  set (w0 := {| post_calls := post_calls w;
                stdout := stdout w ++ [Line_syncing since] |}).
  destruct (get_recent_deals_fetched E since w0) as (w1 & Hget & Hc1).
  set (w2 := {| post_calls := post_calls w1;
                stdout := stdout w1
                          ++ [Line_found (length (fetched E since))] |}).
  destruct (for_each_sync_deal_stops E good rest bad TypeError Hgood
              (mapped_event_not_numeric E bad Hbad) w2)
    as (ps & w3 & Hps & Hloop & Hc3).
  exists ps, w3. split; [exact Hps | split].
  - unfold sync_deals, bind, print. fold w0. rewrite Hget. fold w2.
    rewrite Hfetched. exact Hloop.
  - rewrite Hc3. simpl. rewrite Hc1. reflexivity.
Qed.

(** X2. One malformed deal ends the run.  When, after well-formed deals,
    the batch has a deal whose profit, commission or swap is present and not
    a number, [sync_deals] raises a [TypeError] at that deal: the events of
    the deals before it were sent, in order, and nothing is sent for that
    deal or for any deal after it. *)
Theorem sync_stops_at_malformed_deal (E : Env) (since : datetime) (w : World)
    (good rest : list (gmap string value)) (bad : gmap string value) :
  fetched E since = good ++ bad :: rest ->
  Forall (fun d => well_formed_deal d = true) good ->
  numeric_fields bad = false ->
  exists ps w',
    Forall2 (fun d p => mapped_event E d = Ok p) good ps /\
    sync_deals E since w = (Raise TypeError, w') /\
    post_calls w' = post_calls w ++ map economics_request ps /\
    length (post_calls w') = (length (post_calls w) + length good)%nat.
Proof.
  intros Hfetched Hgood Hbad.
  destruct (sync_deals_stops E since w good rest bad Hfetched Hgood Hbad)
    as (ps & w' & Hps & Hrun & Hcalls).
  exists ps, w'. repeat split; try assumption.
  rewrite Hcalls, length_app, length_map.
  rewrite (Forall2_length _ _ _ Hps). reflexivity.
Qed.

Lemma sync_stops_at_malformed_deal_witness :
  fetched (live_env (Some [deal_1; text_profit; deal_2]) ok_server) epoch
  = [deal_1] ++ text_profit :: [deal_2] /\
  Forall (fun d => well_formed_deal d = true) [deal_1] /\
  numeric_fields text_profit = false /\
  exists w',
    sync_deals (live_env (Some [deal_1; text_profit; deal_2]) ok_server)
      epoch empty_world = (Raise TypeError, w') /\
    post_calls w' = [economics_request payload_1].
Proof.
  assert (Hgood : Forall (fun d => well_formed_deal d = true) [deal_1]).
  { repeat constructor. }
  split; [reflexivity|]. split; [exact Hgood|]. split; [reflexivity|].
  destruct (sync_stops_at_malformed_deal
              (live_env (Some [deal_1; text_profit; deal_2]) ok_server)
              epoch empty_world [deal_1] [deal_2] text_profit
              eq_refl Hgood eq_refl)
    as (ps & w' & Hps & Hrun & Hcalls & _).
  exists w'. split; [exact Hrun|].
  vm_compute in Hrun. injection Hrun as <-. reflexivity.
Defined.

(** ** What a run sends, whatever the deals *)

Lemma event_type_of_ok (deal : gmap string value) (ty : value) :
  event_type_of deal = Ok ty -> ty = VStr "TRADE_EXECUTED".
Proof.
  unfold event_type_of.
  destruct (py_ge_zero (get deal "profit" (VInt 0))) as [[]|]; congruence.
Qed.

Lemma mapped_event_economics_call (E : Env) (deal : gmap string value)
    (p : Payload) :
  mapped_event E deal = Ok p -> economics_call (economics_request p).
Proof.
  unfold mapped_event.
  destruct (event_type_of deal) as [ty|] eqn:Hty; [|discriminate].
  intros Hb. apply build_payload_fields in Hb.
  destruct Hb as (_ & Hty' & _ & _ & _ & Hcur & Hsrc).
  apply event_type_of_ok in Hty. subst ty.
  unfold economics_call. simpl. repeat split; assumption.
Qed.

Lemma sync_deal_sends (E : Env) (deal : gmap string value) (w : World) :
  exists sent,
    post_calls (snd (sync_deal E deal w)) = post_calls w ++ sent /\
    (length sent <= 1)%nat /\
    Forall economics_call sent.
Proof.
  destruct (mapped_event E deal) as [p|e] eqn:Hm.
  - destruct (sync_deal_mapped E deal p w Hm) as (b & w' & Hrun & _ & Hcalls).
    exists [economics_request p]. rewrite Hrun. simpl.
    split; [exact Hcalls|]. split; [lia|].
    constructor; [|constructor].
    exact (mapped_event_economics_call E deal p Hm).
  - destruct (sync_deal_unmapped E deal e w Hm) as (w' & Hrun & Hcalls).
    exists []. rewrite Hrun. simpl. rewrite app_nil_r.
    split; [exact Hcalls|]. split; [lia | constructor].
Qed.

Lemma for_each_sync_deal_sends (E : Env) (deals : list (gmap string value)) :
  forall w : World,
  exists sent,
    post_calls (snd (for_each deals (sync_deal E) w)) = post_calls w ++ sent /\
    (length sent <= length deals)%nat /\
    Forall economics_call sent.
Proof.
  induction deals as [|d ds IH]; intros w.
  - exists []. simpl. rewrite app_nil_r.
    split; [reflexivity|]. split; [lia | constructor].
  - destruct (sync_deal_sends E d w) as (s1 & Hs1 & Hlen1 & Hall1).
    simpl. unfold bind.
    destruct (sync_deal E d w) as [[[]|e] w1] eqn:Hrun; simpl in Hs1.
    + destruct (IH w1) as (s2 & Hs2 & Hlen2 & Hall2).
      exists (s1 ++ s2). rewrite Hs2, Hs1, <- app_assoc.
      split; [reflexivity|]. split.
      * rewrite length_app. simpl. lia.
      * apply Forall_app. split; assumption.
    + exists s1. simpl. split; [exact Hs1|]. split; [simpl; lia | exact Hall1].
Qed.

(** X3. Whatever the deals, the endpoint and the outcome of a run,
    [sync_deals] only adds to the calls made before, it adds at most one
    call per fetched deal, and each added call goes to
    [http://localhost:7005/economics/event] with a timeout of 5 seconds and
    carries the type [TRADE_EXECUTED], the currency [USD] and the source
    [mt5]. *)
Theorem sync_sends_only_economics_events (E : Env) (since : datetime)
    (w : World) :
  exists sent,
    post_calls (snd (sync_deals E since w)) = post_calls w ++ sent /\
    (length sent <= length (fetched E since))%nat /\
    Forall economics_call sent.
Proof.
  set (w0 := {| post_calls := post_calls w;
                stdout := stdout w ++ [Line_syncing since] |}).
  destruct (get_recent_deals_fetched E since w0) as (w1 & Hget & Hc1).
  set (w2 := {| post_calls := post_calls w1;
                stdout := stdout w1
                          ++ [Line_found (length (fetched E since))] |}).
  destruct (for_each_sync_deal_sends E (fetched E since) w2)
    as (sent & Hsent & Hlen & Hall).
  exists sent. split; [|split; assumption].
  unfold sync_deals, bind, print. fold w0. rewrite Hget. fold w2.
  rewrite Hsent. simpl. rewrite Hc1. reflexivity.
Qed.

(** ** What the event depends on *)

Lemma get_insert_other (d : gmap string value) (k key : string)
    (v dflt : value) :
  k <> key -> get (<[k := v]> d) key dflt = get d key dflt.
Proof. intros Hne. unfold get. rewrite lookup_insert_ne; [reflexivity | exact Hne]. Qed.

Lemma get_delete_other (d : gmap string value) (k key : string)
    (dflt : value) :
  k <> key -> get (delete k d) key dflt = get d key dflt.
Proof. intros Hne. unfold get. rewrite lookup_delete_ne; [reflexivity | exact Hne]. Qed.

(** X4. The event of a deal depends on its ticket, comment, profit,
    commission and swap only: setting, changing or removing any other key
    (symbol, volume, price, time, ...) leaves the mapped event, failure
    included, as it was. *)
Theorem mapped_event_ignores_other_keys (E : Env) (deal : gmap string value)
    (k : string) (v : value) :
  ~ In k mapped_keys ->
  mapped_event E (<[k := v]> deal) = mapped_event E deal /\
  mapped_event E (delete k deal) = mapped_event E deal.
Proof.
  unfold mapped_keys. simpl. intros Hk.
  assert (Ht : k <> "ticket") by (intros ->; tauto).
  assert (Hc : k <> "comment") by (intros ->; tauto).
  assert (Hp : k <> "profit") by (intros ->; tauto).
  assert (Hco : k <> "commission") by (intros ->; tauto).
  assert (Hs : k <> "swap") by (intros ->; tauto).
  unfold mapped_event, event_type_of, build_payload, trace_id_of.
  rewrite !get_insert_other, !get_delete_other by assumption.
  split; reflexivity.
Qed.

Lemma mapped_event_ignores_other_keys_witness :
  ~ In "symbol" mapped_keys /\
  mapped_event (mock_env ok_server) (<["symbol" := VStr "GBPUSD"]> deal_1)
  = Ok payload_1 /\
  mapped_event (mock_env ok_server) (delete "symbol" deal_1) = Ok payload_1.
Proof.
  assert (Hk : ~ In "symbol" mapped_keys).
  { unfold mapped_keys. simpl. intros H.
    repeat (destruct H as [H|H]; [discriminate H|]). exact H. }
  split; [exact Hk|].
  destruct (mapped_event_ignores_other_keys (mock_env ok_server) deal_1
              "symbol" (VStr "GBPUSD") Hk) as [Hins Hdel].
  rewrite Hins, Hdel. split; reflexivity.
Defined.

(** X5. Synthesized trace ids tell tickets apart: two deals without a
    comment (the comment is missing, [None] or empty) whose tickets are
    different integers get different trace ids. *)
Theorem synthesized_trace_ids_differ (E : Env) (d1 d2 : gmap string value)
    (t1 t2 : Z) :
  field_is text_or_none d1 "comment" = true -> has_comment d1 = false ->
  field_is text_or_none d2 "comment" = true -> has_comment d2 = false ->
  d1 !! "ticket" = Some (VInt t1) ->
  d2 !! "ticket" = Some (VInt t2) ->
  t1 <> t2 ->
  trace_id_of E d1 <> trace_id_of E d2.
Proof.
  intros Htext1 Hnone1 Htext2 Hnone2 Ht1 Ht2 Hne.
  rewrite (trace_id_of_text E d1 Htext1), (trace_id_of_text E d2 Htext2).
  rewrite Hnone1, Hnone2. unfold get. rewrite Ht1, Ht2. simpl.
  intros Heq. apply Hne. injection Heq as Heq.
  exact (pretty_Z_inj _ _ Heq).
Qed.

Lemma synthesized_trace_ids_differ_witness :
  trace_id_of (mock_env ok_server) deal_1
  <> trace_id_of (mock_env ok_server) bare_deal.
Proof.
  apply (synthesized_trace_ids_differ (mock_env ok_server) deal_1 bare_deal
           1 7); try reflexivity. lia.
Defined.

(** X6. Mock mode: without the MetaTrader5 package, whatever date is asked
    for, whatever the clock and the endpoint, a run completes and makes
    exactly one call, for the event of the mock record: trace id
    [demo-order-001], gross revenue 12.5, fees 0.5, costs 0.1. *)
Theorem mock_mode_run (E : Env) (since : datetime) (w : World) :
  mt5 E = None ->
  exists w',
    sync_deals E since w = (Ok tt, w') /\
    post_calls w' = post_calls w ++ [economics_request mock_payload].
Proof.
  intros Hmock.
  assert (Hfetched : fetched E since = [mock_deal E]).
  { unfold fetched. rewrite Hmock. reflexivity. }
  assert (Hwf : Forall (fun d => well_formed_deal d = true) (fetched E since)).
  { rewrite Hfetched. repeat constructor. }
  destruct (sync_deals_run E since w Hwf) as (ps & w' & Hps & Hrun & Hcalls).
  exists w'. split; [exact Hrun|]. rewrite Hcalls.
  rewrite Hfetched in Hps.
  inversion Hps as [|d p ds qs Hp Hqs]; subst. inversion Hqs; subst.
  vm_compute in Hp. injection Hp as <-. reflexivity.
Qed.

Lemma mock_mode_run_witness :
  mt5 (mock_env timeout_server) = None /\
  exists w',
    sync_deals (mock_env timeout_server) epoch empty_world = (Ok tt, w') /\
    post_calls w' = [economics_request mock_payload].
Proof.
  split; [reflexivity|].
  exact (mock_mode_run (mock_env timeout_server) epoch empty_world eq_refl).
Defined.

(** ** The terminal session, the health check and webhooks *)

Lemma mt5_initialize_run (H : Host) (s : Session) :
  exists lines,
    mt5_initialize H s
    = (Done (opens H),
       {| posts := posts s; hook_posts := hook_posts s; gets := gets s;
          terminal_calls := terminal_calls s ++ opening_calls H;
          out := out s ++ lines |}).
Proof.
  unfold mt5_initialize, opens, opening_calls, MT5_AVAILABLE.
  destruct (mt5 (env H)) as [m|]; simpl.
  - unfold and_then, terminal, say, pure. simpl.
    destruct (initialize H); simpl.
    + destruct (terminal_info H) as [info|]; simpl.
      * eexists [_; _; _]. rewrite <- !app_assoc. reflexivity.
      * exists []. rewrite app_nil_r. reflexivity.
    + eexists [_]. reflexivity.
  - unfold and_then, say, pure. simpl.
    eexists [_]. rewrite app_nil_r. reflexivity.
Qed.

Lemma mt5_shutdown_run (H : Host) (s : Session) :
  mt5_shutdown H s
  = (Done tt,
     {| posts := posts s; hook_posts := hook_posts s; gets := gets s;
        terminal_calls := terminal_calls s ++ closing_calls H;
        out := out s ++ [Out_closed] |}).
Proof.
  unfold mt5_shutdown, closing_calls, and_then, terminal, say, pure.
  destruct (MT5_AVAILABLE (env H)); simpl.
  - reflexivity.
  - rewrite app_nil_r. reflexivity.
Qed.

Lemma check_service_run (H : Host) (base_url : string) (s : Session) :
  exists line,
    check_service H base_url s
    = (Done tt,
       {| posts := posts s; hook_posts := hook_posts s;
          gets := gets s ++ [{| get_url := base_url +:+ "/health";
                                get_timeout := 2 |}];
          terminal_calls := terminal_calls s;
          out := out s ++ [line] |}).
Proof.
  unfold check_service, attempt, and_then, requests_get, say.
  destruct (health H _) as [resp|e]; simpl.
  - destruct (ok resp); simpl; eexists; reflexivity.
  - eexists. reflexivity.
Qed.

Lemma check_health_run (H : Host) (s : Session) :
  exists lines,
    check_health H s
    = (Done tt,
       {| posts := posts s; hook_posts := hook_posts s;
          gets := gets s ++ health_requests;
          terminal_calls :=
            terminal_calls s
            ++ (if opens H then opening_calls H ++ closing_calls H
                else opening_calls H);
          out := out s ++ lines |}).
Proof.
  unfold check_health.
  unfold and_then at 1. unfold say at 1. simpl.
  unfold and_then at 1. unfold say at 1. simpl.
  unfold and_then at 1.
  match goal with |- context [mt5_initialize H ?s0] =>
    destruct (mt5_initialize_run H s0) as (l1 & ->) end.
  simpl.
  assert (Hmid : exists l2,
    (if opens H
     then and_then (say Out_connected) (fun _ =>
          and_then (if MT5_AVAILABLE (env H)
                    then match account_info H with
                         | Some account =>
                             and_then (say (Out_account (login account)))
                               (fun _ => say (Out_balance (balance account)))
                         | None => pure tt
                         end
                    else pure tt) (fun _ => mt5_shutdown H))
     else say Out_not_connected)
      {| posts := posts s; hook_posts := hook_posts s; gets := gets s;
         terminal_calls := terminal_calls s ++ opening_calls H;
         out := ((out s ++ [Out_health_check]) ++ [Out_mt5_terminal]) ++ l1 |}
    = (Done tt,
       {| posts := posts s; hook_posts := hook_posts s; gets := gets s;
          terminal_calls :=
            terminal_calls s
            ++ (if opens H then opening_calls H ++ closing_calls H
                else opening_calls H);
          out := out s ++ l2 |})).
  { destruct (opens H).
    - unfold and_then at 1. unfold say at 1. simpl.
      unfold and_then at 1.
      destruct (MT5_AVAILABLE (env H)) eqn:Hav.
      + destruct (account_info H) as [account|].
        * unfold and_then, say, pure. simpl. rewrite mt5_shutdown_run. simpl.
          eexists. rewrite <- !app_assoc. reflexivity.
        * unfold pure. simpl. rewrite mt5_shutdown_run. simpl.
          eexists. rewrite <- !app_assoc. reflexivity.
      + unfold pure. simpl. rewrite mt5_shutdown_run. simpl.
        eexists. rewrite <- !app_assoc. reflexivity.
    - unfold say. simpl. eexists. rewrite <- !app_assoc. reflexivity. }
  destruct Hmid as (l2 & Hmid).
  unfold and_then at 1. rewrite Hmid.
  unfold and_then at 1. unfold say at 1. simpl.
  unfold and_then at 1.
  match goal with |- context [check_service H ECONOMICS_URL ?s0] =>
    destruct (check_service_run H ECONOMICS_URL s0) as (l3 & ->) end.
  simpl.
  unfold and_then at 1. unfold say at 1. simpl.
  match goal with |- context [check_service H WEBHOOKS_URL ?s0] =>
    destruct (check_service_run H WEBHOOKS_URL s0) as (l4 & ->) end.
  simpl. eexists. rewrite <- !app_assoc. reflexivity.
Qed.

(** X7. The health check always runs to the end: whatever the terminal and
    the two services do, [check_health] returns without an exception, sends
    nothing to the economics or webhooks API, and asks first
    [http://localhost:7005/health] and then [http://localhost:7006/health],
    each with a timeout of 2 seconds.  The terminal is closed exactly when
    it was opened: with the package, [initialize] is called and [shutdown]
    follows only if it succeeded; in mock mode the terminal is not
    touched. *)
Theorem check_health_probes_both (H : Host) (s : Session) :
  exists s',
    check_health H s = (Done tt, s') /\
    posts s' = posts s /\
    hook_posts s' = hook_posts s /\
    gets s' = gets s ++ health_requests /\
    terminal_calls s'
    = terminal_calls s
      ++ match mt5 (env H) with
         | None => []
         | Some _ =>
             if initialize H then [Call_initialize; Call_shutdown]
             else [Call_initialize]
         end.
Proof.
  destruct (check_health_run H s) as (lines & Hrun).
  eexists. split; [exact Hrun|]. simpl.
  repeat split.
  unfold opens, opening_calls, closing_calls, MT5_AVAILABLE.
  destruct (mt5 (env H)); simpl; [destruct (initialize H)|]; reflexivity.
Qed.

Lemma register_webhook_run (H : Host) (url : string) (events : list string)
    (s : Session) :
  exists line,
    register_webhook H url events s
    = (Done match webhooks H (webhook_request url events) with
            | Webhook.Responded reply =>
                if ok (Webhook.response reply)
                then match Webhook.body reply with
                     | Ok (JDict d) => Some (JDict d)
                     | _ => None
                     end
                else None
            | Webhook.Failed _ => None
            end,
       {| posts := posts s;
          hook_posts := hook_posts s ++ [webhook_request url events];
          gets := gets s;
          terminal_calls := terminal_calls s;
          out := out s ++ [line] |}).
Proof.
  unfold register_webhook, attempt, and_then, requests_post_webhook.
  change {| Webhook.endpoint := WEBHOOKS_URL +:+ "/webhooks";
            Webhook.json := {| Webhook.url := url; Webhook.events := events |};
            Webhook.timeout := 5 |}
    with (webhook_request url events).
  destruct (webhooks H (webhook_request url events)) as [reply|e]; simpl.
  - destruct (ok (Webhook.response reply)); simpl.
    + destruct (Webhook.body reply) as [[v|l|d]|e]; simpl;
        eexists; reflexivity.
    + eexists. reflexivity.
  - eexists. reflexivity.
Qed.

(** X8. Registering a webhook never raises and sends exactly one request:
    whatever the webhooks API does, [register_webhook] makes one call to
    [http://localhost:7006/webhooks] with the given url and events and a
    timeout of 5 seconds, prints one line, and returns the decoded body
    when the response is [ok] and its body is a JSON object, and [None]
    otherwise (a status from 400 to 599, a failed call, a body that is not
    JSON or not an object). *)
Theorem register_webhook_one_call (H : Host) (url : string)
    (events : list string) (s : Session) :
  exists s',
    register_webhook H url events s
    = (Done match webhooks H (webhook_request url events) with
            | Webhook.Responded reply =>
                if ok (Webhook.response reply)
                then match Webhook.body reply with
                     | Ok (JDict d) => Some (JDict d)
                     | _ => None
                     end
                else None
            | Webhook.Failed _ => None
            end, s') /\
    hook_posts s' = hook_posts s ++ [webhook_request url events] /\
    posts s' = posts s /\
    gets s' = gets s /\
    terminal_calls s' = terminal_calls s /\
    length (out s') = Datatypes.S (length (out s)).
Proof.
  destruct (register_webhook_run H url events s) as (line & Hrun).
  eexists. split; [exact Hrun|]. simpl. repeat split.
  rewrite length_app. simpl. lia.
Qed.

(** ** The command line *)

Lemma main_sync_branch (H : Host) (args : Args) (since : datetime)
    (s : Session) :
  arg_health args = false ->
  arg_sync_deals args = true ->
  since_of H args = Some since ->
  main H args s
  = and_then (mt5_initialize H)
      (fun up =>
         if up
         then and_then (run_script (sync_deals (env H) since))
                (fun _ => mt5_shutdown H)
         else pure tt) s.
Proof.
  unfold main, since_of. intros -> -> Hsince.
  destruct (given (arg_since args)).
  - rewrite Hsince. reflexivity.
  - injection Hsince as <-. reflexivity.
Qed.

Lemma sync_deal_prints (E : Env) (deal : gmap string value) (w : World) :
  exists lines, stdout (snd (sync_deal E deal w)) = stdout w ++ lines.
Proof.
  destruct (mapped_event E deal) as [p|e] eqn:Hm.
  - destruct (sync_deal_mapped E deal p w Hm) as (b & w' & Hrun & Hd & _).
    rewrite Hrun. simpl. unfold delivery in Hd. simpl in Hd.
    destruct (server E (post_calls w) (economics_request p)) as [resp|e'].
    + destruct (ok resp); injection Hd as _ <-; simpl;
        eexists; rewrite <- app_assoc; reflexivity.
    + injection Hd as _ <-. simpl. eexists. rewrite <- app_assoc. reflexivity.
  - unfold mapped_event in Hm. unfold sync_deal, bind, lift, print.
    destruct (event_type_of deal) as [ty|e'].
    + rewrite (post_economic_event_raises _ _ _ _ _ _ Hm). simpl.
      eexists. reflexivity.
    + simpl. exists []. rewrite app_nil_r. reflexivity.
Qed.

Lemma for_each_sync_deal_prints (E : Env) (deals : list (gmap string value)) :
  forall w : World,
  exists lines,
    stdout (snd (for_each deals (sync_deal E) w)) = stdout w ++ lines.
Proof.
  induction deals as [|d ds IH]; intros w.
  - exists []. simpl. rewrite app_nil_r. reflexivity.
  - destruct (sync_deal_prints E d w) as (l1 & Hl1).
    simpl. unfold bind.
    destruct (sync_deal E d w) as [[[]|e] w1]; simpl in Hl1.
    + destruct (IH w1) as (l2 & Hl2). rewrite Hl2, Hl1.
      eexists. rewrite <- app_assoc. reflexivity.
    + simpl. exists l1. exact Hl1.
Qed.

Lemma get_recent_deals_prints (E : Env) (since : datetime) (w : World) :
  exists w' lines,
    get_recent_deals E since w = (Ok (fetched E since), w') /\
    stdout w' = stdout w ++ lines.
Proof.
  unfold get_recent_deals, fetched.
  destruct (mt5 E) as [m|].
  - destruct (history_deals_get m since (now E)) as [deals|]; simpl.
    + exists w, []. rewrite app_nil_r. split; reflexivity.
    + eexists _, [_]. split; reflexivity.
  - exists w, []. rewrite app_nil_r. split; reflexivity.
Qed.

(** A run starts by printing the line that says what it syncs. *)
Lemma sync_deals_prints (E : Env) (since : datetime) (w : World) :
  exists lines,
    stdout (snd (sync_deals E since w))
    = stdout w ++ Line_syncing since :: lines.
Proof.
  set (w0 := {| post_calls := post_calls w;
                stdout := stdout w ++ [Line_syncing since] |}).
  destruct (get_recent_deals_prints E since w0) as (w1 & l1 & Hget & Hl1).
  set (w2 := {| post_calls := post_calls w1;
                stdout := stdout w1
                          ++ [Line_found (length (fetched E since))] |}).
  destruct (for_each_sync_deal_prints E (fetched E since) w2) as (l2 & Hl2).
  unfold sync_deals, bind, print. fold w0. rewrite Hget. fold w2.
  rewrite Hl2. simpl. rewrite Hl1. simpl.
  eexists. rewrite <- !app_assoc. reflexivity.
Qed.

Lemma last_script_line (pre : list Out) (l : Line) (ls : list Line) :
  exists l', last (pre ++ map Out_script (l :: ls)) = Some (Out_script l').
Proof.
  rewrite last_app.
  assert (Hlast : exists l', last (map Out_script (l :: ls))
                             = Some (Out_script l')).
  { revert l. induction ls as [|x xs IH]; intros l.
    - exists l. reflexivity.
    - destruct (IH x) as (l' & Hl'). exists l'. exact Hl'. }
  destruct Hlast as (l' & ->). exists l'. reflexivity.
Qed.

Lemma main_bad_since (H : Host) (args : Args) (s : Session) :
  arg_health args = false ->
  arg_sync_deals args = true ->
  since_of H args = None ->
  main H args s = (Thrown ValueError, s).
Proof.
  unfold main, since_of. intros -> -> Hsince.
  destruct (given (arg_since args)); [|discriminate Hsince].
  rewrite Hsince. reflexivity.
Qed.

(** X9. [--sync-deals] on a terminal that opens (or in mock mode), over
    well-formed deals: [main] opens the terminal, sends the events of the
    deals fetched since the given date (the day before now without
    [--since]), one per deal and in order, closes the terminal and ends
    with the line that says so; it sends nothing to the webhooks API or the
    health endpoints. *)
Theorem main_sync_opens_syncs_closes (H : Host) (args : Args)
    (since : datetime) (s : Session) :
  arg_health args = false ->
  arg_sync_deals args = true ->
  since_of H args = Some since ->
  opens H = true ->
  Forall (fun d => well_formed_deal d = true) (fetched (env H) since) ->
  exists ps s',
    main H args s = (Done tt, s') /\
    Forall2 (fun d p => mapped_event (env H) d = Ok p)
      (fetched (env H) since) ps /\
    posts s' = posts s ++ map economics_request ps /\
    terminal_calls s'
    = terminal_calls s ++ opening_calls H ++ closing_calls H /\
    last (out s') = Some Out_closed /\
    hook_posts s' = hook_posts s /\
    gets s' = gets s.
Proof.
  intros Hh Hs Hsince Hopens Hwf.
  rewrite (main_sync_branch H args since s Hh Hs Hsince).
  unfold and_then at 1.
  destruct (mt5_initialize_run H s) as (l1 & ->). rewrite Hopens.
  unfold and_then, run_script. simpl.
  destruct (sync_deals_run (env H) since
              {| post_calls := posts s; stdout := [] |} Hwf)
    as (ps & w' & Hps & Hrun & Hcalls).
  rewrite Hrun, mt5_shutdown_run. simpl.
  exists ps. eexists. split; [reflexivity|]. simpl.
  split; [exact Hps|]. split; [exact Hcalls|].
  split; [rewrite <- app_assoc; reflexivity|].
  split; [apply last_snoc|]. split; reflexivity.
Qed.

Lemma main_sync_opens_syncs_closes_witness :
  since_of (two_deal_host true) (sync_args (Some "1970-01-01")) = Some epoch /\
  opens (two_deal_host true) = true /\
  exists s',
    main (two_deal_host true) (sync_args (Some "1970-01-01")) empty_session
    = (Done tt, s') /\
    posts s' = [economics_request payload_1; economics_request payload_2] /\
    terminal_calls s' = [Call_initialize; Call_shutdown].
Proof.
  assert (Hwf : Forall (fun d => well_formed_deal d = true)
                  (fetched (env (two_deal_host true)) epoch)).
  { repeat constructor. }
  split; [reflexivity|]. split; [reflexivity|].
  destruct (main_sync_opens_syncs_closes (two_deal_host true) (sync_args (Some "1970-01-01"))
              epoch empty_session eq_refl eq_refl eq_refl eq_refl Hwf)
    as (ps & s' & Hrun & _ & _ & Hterm & _).
  exists s'. split; [exact Hrun|]. split; [|exact Hterm].
  vm_compute in Hrun. injection Hrun as <-. reflexivity.
Defined.

(** X10. [--sync-deals] on a terminal that does not open: [main] calls
    [initialize] once, prints the failure with the terminal's last error,
    and returns; no deal is fetched, nothing is sent, and [shutdown] is not
    called. *)
Theorem main_sync_skipped_when_terminal_fails (H : Host) (args : Args)
    (since : datetime) (m : MT5) (s : Session) :
  arg_health args = false ->
  arg_sync_deals args = true ->
  since_of H args = Some since ->
  mt5 (env H) = Some m ->
  initialize H = false ->
  main H args s
  = (Done tt,
     {| posts := posts s; hook_posts := hook_posts s; gets := gets s;
        terminal_calls := terminal_calls s ++ [Call_initialize];
        out := out s ++ [Out_initialize_failed (last_error m)] |}).
Proof.
  intros Hh Hs Hsince Hm Hinit.
  rewrite (main_sync_branch H args since s Hh Hs Hsince).
  unfold and_then, mt5_initialize, terminal, say, pure.
  rewrite Hm, Hinit. reflexivity.
Qed.

Lemma main_sync_skipped_when_terminal_fails_witness :
  since_of (two_deal_host false) (sync_args None) = Some epoch /\
  initialize (two_deal_host false) = false /\
  main (two_deal_host false) (sync_args None) empty_session
  = (Done tt,
     {| posts := []; hook_posts := []; gets := [];
        terminal_calls := [Call_initialize];
        out := [Out_initialize_failed (-1, "Terminal: Call failed")] |}).
Proof.
  split; [reflexivity|]. split; [reflexivity|].
  exact (main_sync_skipped_when_terminal_fails (two_deal_host false)
           (sync_args None) epoch
           {| history_deals_get := fun _ _ => Some [deal_1; deal_2];
              last_error := (-1, "Terminal: Call failed") |}
           empty_session eq_refl eq_refl eq_refl eq_refl eq_refl).
Defined.

(** X11. An error during the sync leaves the terminal open.  When a
    fetched deal is malformed (a profit, commission or swap that is not a
    number) after well-formed ones, [main] opens the terminal, sends the
    events of the deals before the malformed one and then raises the
    [TypeError]: [shutdown] is not called, and the last line printed is a
    line of the sync, not the line that says the connection was closed. *)
Theorem main_sync_error_leaves_terminal_open (H : Host) (args : Args)
    (since : datetime) (s : Session)
    (good rest : list (gmap string value)) (bad : gmap string value) :
  arg_health args = false ->
  arg_sync_deals args = true ->
  since_of H args = Some since ->
  opens H = true ->
  fetched (env H) since = good ++ bad :: rest ->
  Forall (fun d => well_formed_deal d = true) good ->
  numeric_fields bad = false ->
  exists ps s' l,
    main H args s = (Thrown (Raised TypeError), s') /\
    Forall2 (fun d p => mapped_event (env H) d = Ok p) good ps /\
    posts s' = posts s ++ map economics_request ps /\
    terminal_calls s' = terminal_calls s ++ opening_calls H /\
    last (out s') = Some (Out_script l).
Proof.
  intros Hh Hs Hsince Hopens Hfetched Hgood Hbad.
  rewrite (main_sync_branch H args since s Hh Hs Hsince).
  unfold and_then at 1.
  destruct (mt5_initialize_run H s) as (l1 & ->). rewrite Hopens.
  unfold and_then, run_script. simpl.
  destruct (sync_deals_stops (env H) since
              {| post_calls := posts s; stdout := [] |}
              good rest bad Hfetched Hgood Hbad)
    as (ps & w' & Hps & Hrun & Hcalls).
  destruct (sync_deals_prints (env H) since
              {| post_calls := posts s; stdout := [] |}) as (lines & Hlines).
  rewrite Hrun in Hlines |- *. simpl in Hlines |- *.
  destruct (last_script_line (out s ++ l1) (Line_syncing since) lines)
    as (l & Hlast).
  exists ps. eexists. exists l. split; [reflexivity|]. simpl.
  split; [exact Hps|]. split; [exact Hcalls|]. split; [reflexivity|].
  rewrite Hlines. exact Hlast.
Qed.

Lemma main_sync_error_leaves_terminal_open_witness :
  numeric_fields text_profit = false /\
  exists s',
    main malformed_deal_host (sync_args None) empty_session
    = (Thrown (Raised TypeError), s') /\
    posts s' = [economics_request payload_1] /\
    terminal_calls s' = [Call_initialize].
Proof.
  assert (Hgood : Forall (fun d => well_formed_deal d = true) [deal_1]).
  { repeat constructor. }
  split; [reflexivity|].
  destruct (main_sync_error_leaves_terminal_open malformed_deal_host
              (sync_args None) epoch
              empty_session [deal_1] [deal_2] text_profit
              eq_refl eq_refl eq_refl eq_refl eq_refl Hgood eq_refl)
    as (ps & s' & l & Hrun & _ & _ & Hterm & _).
  exists s'. split; [exact Hrun|]. split; [|exact Hterm].
  vm_compute in Hrun. injection Hrun as <-. reflexivity.
Defined.



(** X13. [--health] comes first: with it, whatever else is on the command
    line, [main] only checks health; it sends nothing to the economics API
    and registers no webhook, makes the two health requests, and
    returns. *)
Theorem main_health_first (H : Host) (args : Args) (s : Session) :
  arg_health args = true ->
  exists s',
    main H args s = (Done tt, s') /\
    posts s' = posts s /\
    hook_posts s' = hook_posts s /\
    gets s' = gets s ++ health_requests.
Proof.
  intros Hh. unfold main. rewrite Hh.
  destruct (check_health_run H s) as (lines & Hrun).
  eexists. split; [exact Hrun|]. simpl. repeat split.
Qed.

Lemma main_health_first_witness :
  arg_health all_args = true /\
  exists s',
    main (two_deal_host true) all_args empty_session = (Done tt, s') /\
    posts s' = [] /\ hook_posts s' = [] /\ gets s' = health_requests.
Proof.
  split; [reflexivity|].
  exact (main_health_first (two_deal_host true) all_args empty_session
           eq_refl).
Defined.

(** X14. [--sync-deals] comes before [--register-webhook]: when both are
    given (and [--health] is not), no webhook is registered and no health
    request is made, however the sync ends. *)
Theorem main_sync_before_webhook (H : Host) (args : Args) (s : Session) :
  arg_health args = false ->
  arg_sync_deals args = true ->
  hook_posts (snd (main H args s)) = hook_posts s /\
  gets (snd (main H args s)) = gets s.
Proof.
  intros Hh Hs.
  assert (Hrun : exists r s',
             main H args s = (r, s') /\
             hook_posts s' = hook_posts s /\ gets s' = gets s).
  { destruct (since_of H args) as [since|] eqn:Hsince.
    - rewrite (main_sync_branch H args since s Hh Hs Hsince).
      unfold and_then at 1.
      destruct (mt5_initialize_run H s) as (l1 & ->).
      destruct (opens H).
      + unfold and_then, run_script. simpl.
        destruct (sync_deals (env H) since _) as [[[]|e] w'].
        * rewrite mt5_shutdown_run. eexists; eexists.
          split; [reflexivity|]. split; reflexivity.
        * eexists; eexists. split; [reflexivity|]. split; reflexivity.
      + eexists; eexists. split; [reflexivity|]. split; reflexivity.
    - rewrite (main_bad_since H args s Hh Hs Hsince).
      eexists; eexists. split; [reflexivity|]. split; reflexivity. }
  destruct Hrun as (r & s' & -> & Hhooks & Hgets).
  split; assumption.
Qed.

Lemma main_sync_before_webhook_witness :
  arg_health sync_and_register_args = false /\
  arg_sync_deals sync_and_register_args = true /\
  hook_posts (snd (main (two_deal_host true) sync_and_register_args
                     empty_session)) = [] /\
  gets (snd (main (two_deal_host true) sync_and_register_args
               empty_session)) = [].
Proof.
  split; [reflexivity|]. split; [reflexivity|].
  exact (main_sync_before_webhook (two_deal_host true) sync_and_register_args
           empty_session eq_refl eq_refl).
Defined.

(** X15. An empty value counts as no value: [main] behaves with
    [--since ''] as without [--since], and with [--register-webhook ''] as
    without [--register-webhook]. *)
Theorem main_ignores_empty_values (H : Host) (args : Args) (s : Session) :
  main H args s
  = main H {| arg_health := arg_health args;
              arg_sync_deals := arg_sync_deals args;
              arg_since := drop_empty (arg_since args);
              arg_register_webhook :=
                drop_empty (arg_register_webhook args) |} s.
Proof.
  unfold main, given, drop_empty. simpl.
  destruct (arg_health args); [reflexivity|].
  destruct (arg_sync_deals args).
  - destruct (arg_since args) as [x|]; [|reflexivity].
    destruct (String.eqb x "") eqn:Hx; simpl; rewrite ?Hx; reflexivity.
  - destruct (arg_register_webhook args) as [u|]; [|reflexivity].
    destruct (String.eqb u "") eqn:Hu; simpl; rewrite ?Hu; reflexivity.
Qed.

(** X16. [--register-webhook URL] alone: [main] registers the url for the
    events [trace.completed], [override.approved] and
    [economics.recorded] with one call to the webhooks API, sends nothing
    to the economics API, does not touch the terminal, and returns whatever
    the webhooks API answers. *)
Theorem main_registers_webhook (H : Host) (args : Args) (u : string)
    (s : Session) :
  arg_health args = false ->
  arg_sync_deals args = false ->
  arg_register_webhook args = Some u ->
  u <> "" ->
  exists s',
    main H args s = (Done tt, s') /\
    hook_posts s' = hook_posts s ++ [webhook_request u registered_events] /\
    posts s' = posts s /\
    terminal_calls s' = terminal_calls s.
Proof.
  intros Hh Hs Hu Hne. unfold main, given. rewrite Hh, Hs, Hu.
  apply String.eqb_neq in Hne. rewrite Hne. simpl.
  unfold and_then.
  destruct (register_webhook_run H u registered_events s) as (line & Hrun).
  unfold registered_events in Hrun. rewrite Hrun. simpl.
  eexists. split; [reflexivity|]. simpl. repeat split.
Qed.

Lemma main_registers_webhook_witness :
  arg_register_webhook register_args = Some "http://example.org/hook" /\
  exists s',
    main mock_host register_args empty_session = (Done tt, s') /\
    hook_posts s'
    = [webhook_request "http://example.org/hook" registered_events].
Proof.
  split; [reflexivity|].
  destruct (main_registers_webhook mock_host register_args
              "http://example.org/hook" empty_session
              eq_refl eq_refl eq_refl)
    as (s' & Hrun & Hhooks & _).
  { discriminate. }
  exists s'. split; [exact Hrun | exact Hhooks].
Defined.

(** ** Gross revenue *)

(** X17. Gross revenue keeps the sign: the event of a well-formed deal
    carries the profit stored in the deal, whatever value it is, unchanged
    as its gross revenue, so a loss is posted as a negative revenue; and
    this is the event the run sends for the deal. *)
Theorem gross_revenue_is_profit (E : Env) (deal : gmap string value)
    (v : value) (w : World) :
  well_formed_deal deal = true ->
  deal !! "profit" = Some v ->
  exists p w',
    mapped_event E deal = Ok p /\
    grossRevenue p = v /\
    sync_deal E deal w = (Ok tt, w') /\
    post_calls w' = post_calls w ++ [economics_request p].
Proof.
  intros Hwf Hv.
  destruct (mapped_event_well_formed E deal Hwf) as (f & c & _ & _ & Hm).
  destruct (sync_deal_mapped E deal _ w Hm) as (b & w' & Hrun & _ & Hcalls).
  eexists. exists w'. split; [exact Hm|]. simpl.
  split; [|split; [exact Hrun | exact Hcalls]].
  unfold get. rewrite Hv. reflexivity.
Qed.

(** The loss of the scenario: a profit of -3 is posted as -3. *)
Lemma gross_revenue_is_profit_witness :
  well_formed_deal deal_2 = true /\
  deal_2 !! "profit" = Some (VFloat f_neg_3) /\
  exists p,
    mapped_event (mock_env ok_server) deal_2 = Ok p /\
    grossRevenue p = VFloat f_neg_3.
Proof.
  assert (Hwf : well_formed_deal deal_2 = true) by reflexivity.
  assert (Hv : deal_2 !! "profit" = Some (VFloat f_neg_3)) by reflexivity.
  split; [exact Hwf|]. split; [exact Hv|].
  destruct (gross_revenue_is_profit (mock_env ok_server) deal_2
              (VFloat f_neg_3) empty_world Hwf Hv)
    as (p & w' & Hm & Hg & _).
  exists p. split; [exact Hm | exact Hg].
Defined.
